(** * devconnector: posts and profile routes

    A shallow embedding of the Express route handlers of
    [routes/api/posts.js] and [routes/api/profile.js].  The MongoDB
    collections become explicit state ([DB]), a handler becomes a function
    from the state to the HTTP response it sends and the state it leaves,
    and the exceptions that [try { ... } catch (err) { ... }] intercepts are
    threaded through a small state-and-exception monad. *)

From Stdlib Require Import ZArith String Ascii List Bool Lia DecimalString.
From stdpp Require Import base option list gmap strings.

Open Scope string_scope.
Open Scope Z_scope.

(** ** JavaScript arrays *)

(** [Array.prototype.indexOf] on an array of strings, compared with [===]:
    the first index holding [x], or [-1]. *)
Fixpoint indexOf (x : string) (l : list string) : Z :=
  match l with
  | [] => -1
  | y :: l' =>
      if String.eqb y x then 0
      else let i := indexOf x l' in if i <? 0 then -1 else i + 1
  end.

(** [Array.prototype.splice(start, deleteCount)]: a negative [start] counts
    from the end of the array and is clamped at [0], a [start] beyond the
    end is clamped at the length; the removed elements are dropped. *)
Definition splice {A : Type} (l : list A) (start : Z) (deleteCount : nat) : list A :=
  let len := Z.of_nat (length l) in
  let from := if start <? 0 then Z.max (len + start) 0 else Z.min start len in
  take (Z.to_nat from) l ++ drop (Z.to_nat from + deleteCount) l.

(** [Array.prototype.unshift(x)]: [x] becomes the first element. *)
Definition unshift {A : Type} (x : A) (l : list A) : list A := x :: l.

(** ** Documents *)

(** ObjectIds are carried in their string form ([toString()], [.id]); the
    handlers only ever compare them as strings. *)
Definition ObjectId := string.

Record User := mkUser {
  user_name : string;
  user_avatar : string
}.

Record Like := mkLike {
  like_id : ObjectId;
  like_user : ObjectId
}.

Record Comment := mkComment {
  comment_id : ObjectId;
  comment_user : ObjectId;
  comment_text : string;
  comment_name : string;
  comment_avatar : string;
  comment_date : Z
}.

(** A post document; its [_id] is the key under which the collection
    holds it. *)
Record Post := mkPost {
  post_user : ObjectId;
  post_text : string;
  post_name : string;
  post_avatar : string;
  likes : list Like;
  comments : list Comment;
  post_date : Z
}.

Definition set_likes (p : Post) (ls : list Like) : Post :=
  mkPost (post_user p) (post_text p) (post_name p) (post_avatar p)
         ls (comments p) (post_date p).

Definition set_comments (p : Post) (cs : list Comment) : Post :=
  mkPost (post_user p) (post_text p) (post_name p) (post_avatar p)
         (likes p) cs (post_date p).

Record Experience := mkExperience {
  exp_id : ObjectId;
  exp_title : option string;
  exp_company : option string;
  exp_location : option string;
  exp_from : option string;
  exp_to : option string;
  exp_current : option bool;
  exp_description : option string
}.

(** A profile document.  [attrs] holds the top-level string paths
    (company, website, location, bio, status, githubusername) under their
    names, [social] the platform links under theirs. *)
Record Profile := mkProfile {
  profile_id : ObjectId;
  profile_user : ObjectId;
  attrs : gmap string string;
  skills : list string;
  social : gmap string string;
  experience : list Experience
}.

Definition set_experience (p : Profile) (es : list Experience) : Profile :=
  mkProfile (profile_id p) (profile_user p) (attrs p) (skills p) (social p) es.

(** The three collections.  Users and posts are looked up by [_id] only;
    profiles are searched by their [user] path, so the collection keeps
    its documents in order. *)
Record DB := mkDB {
  users : gmap string User;
  posts : gmap string Post;
  profiles : list Profile
}.

Definition set_posts (db : DB) (ps : gmap string Post) : DB :=
  mkDB (users db) ps (profiles db).

Definition set_profiles (db : DB) (ps : list Profile) : DB :=
  mkDB (users db) (posts db) ps.

(** ** Responses *)

Record ValidationError := mkValidationError {
  err_param : string;
  err_msg : string;
  err_value : option string
}.

Inductive Body :=
| Msg (msg : string)                      (* { msg: ... } *)
| Text (text : string)                    (* res.send(...) *)
| Errors (errors : list ValidationError)  (* { errors: [...] } *)
| PostDoc (id : ObjectId) (post : Post)
| LikesDoc (ls : list Like)
| CommentsDoc (cs : list Comment)
| ProfileDoc (profile : Profile)
| Null.                                   (* res.json(null) *)

Record Response := mkResponse {
  status : Z;
  body : Body
}.

(** [res.json(x)] answers with status 200. *)
Definition json (b : Body) : Response := mkResponse 200 b.

(** ** Exceptions and the handler monad *)

(** What a handler's [catch] can see of an exception: Mongoose's cast
    errors carry a [kind]; a [TypeError] (reading a property of [null])
    and the validation error with which [save()] rejects a document carry
    none. *)
Inductive Error :=
| CastError (kind : string)
| TypeError
| SaveValidationError.

Definition kind (e : Error) : option string :=
  match e with
  | CastError k => Some k
  | TypeError => None
  | SaveValidationError => None
  end.

Definition Async (A : Type) : Type := DB -> (Error + A) * DB.

Definition ret {A : Type} (a : A) : Async A := fun db => (inr a, db).

Definition throw {A : Type} (e : Error) : Async A := fun db => (inl e, db).

Definition bind {A B : Type} (m : Async A) (f : A -> Async B) : Async B :=
  fun db =>
    match m db with
    | (inr a, db') => f a db'
    | (inl e, db') => (inl e, db')
    end.

Declare Scope async_scope.
Delimit Scope async_scope with async.
Notation "x <- m ;; k" := (bind m (fun x => k))
  (at level 100, m at next level, right associativity) : async_scope.
Notation "m ;;; k" := (bind m (fun _ => k))
  (at level 100, right associativity) : async_scope.

(** Reading a property of a value that may be [null]. *)
Definition deref {A : Type} (o : option A) : Async A :=
  match o with
  | Some a => ret a
  | None => throw TypeError
  end.

(** [try { body } catch (err) { handler }]: every [catch] block of the two
    route files ends by sending a response. *)
Definition try_catch (body : Async Response) (handler : Error -> Response)
  : DB -> Response * DB :=
  fun db =>
    match body db with
    | (inr r, db') => (r, db')
    | (inl e, db') => (handler e, db')
    end.

Definition server_error : Response := mkResponse 500 (Text "Server Error").

(** ** express-validator *)

(** [check(param, msg).not().isEmpty()]: the field fails when it is missing
    or the empty string. *)
Definition isEmpty (v : option string) : bool :=
  match v with
  | Some s => String.eqb s ""
  | None => true
  end.

Definition check_not_empty (param msg : string) (v : option string)
  : list ValidationError :=
  if isEmpty v then [mkValidationError param msg v] else [].

(** Truthiness of a request field: [undefined] and the empty string are
    falsy, every other string is truthy. *)
Definition truthy (v : option string) : bool :=
  match v with
  | Some s => negb (String.eqb s "")
  | None => false
  end.

(** ** routes/api/posts.js *)

Module PostsApi.

Section Handlers.

(** The ObjectId cast of the store driver: the [_id] that a string of the
    URL denotes (for 24 hexadecimal digits, in either case, the id of
    those digits), or nothing when the string is no ObjectId; [findById]
    rejects with a cast error of kind ObjectId then. *)
Variable castObjectId : string -> option ObjectId.

(** [Model.findById(req.params.id)]: the document loaded, with its
    [_id], or [null]. *)
Definition findById {D : Type} (coll : DB -> gmap string D) (id : string)
  : Async (option (ObjectId * D)) :=
  fun db =>
    match castObjectId id with
    | Some oid => (inr (pair oid <$> coll db !! oid), db)
    | None => (inl (CastError "ObjectId"), db)
    end.

(** [User.findById(req.user.id)]: the identity that the auth middleware
    took from the verified token is the string form of the [_id] of a user
    document, which casts to that [_id]. *)
Definition findById_identity {D : Type} (coll : DB -> gmap string D)
    (req_user_id : ObjectId) : Async (option D) :=
  fun db => (inr (coll db !! req_user_id), db).

(** [post.save()] writes the document back under its [_id]. *)
Definition save_post (id : ObjectId) (p : Post) : Async unit :=
  fun db => (inr tt, set_posts db (<[id := p]> (posts db))).

(** [post.remove()] *)
Definition remove_post (id : ObjectId) : Async unit :=
  fun db => (inr tt, set_posts db (delete id (posts db))).

Definition post_not_found : Response := mkResponse 404 (Msg "Post not found").

Definition not_authorized : Response := mkResponse 401 (Msg "User not authorized").

(** The [catch] block of GET /:id and DELETE /:id. *)
Definition catch_ObjectId (err : Error) : Response :=
  if decide (kind err = Some "ObjectId") then post_not_found
  else server_error.

(** The [catch] block of the other routes. *)
Definition catch_all (err : Error) : Response := server_error.

(** POST api/posts.  [oid] is the [_id] the driver generates for the
    new document and [now] the default of its [date] path. *)
Definition createPost (req_user_id : ObjectId) (text : option string)
    (oid : ObjectId) (now : Z) : DB -> Response * DB :=
  fun db =>
    let errors := check_not_empty "text" "Text is required" text in
    if negb (Nat.eqb (length errors) 0) then (mkResponse 400 (Errors errors), db)
    else
      try_catch
        (user <- findById_identity users req_user_id ;;
         user <- deref user ;;
         let newPost := mkPost req_user_id (default "" text) (user_name user)
                               (user_avatar user) [] [] now in
         save_post oid newPost ;;;
         ret (json (PostDoc oid newPost)))%async
        catch_all db.

(** GET api/posts/:id *)
Definition getPost (id : string) : DB -> Response * DB :=
  try_catch
    (post <- findById posts id ;;
     match post with
     | None => ret post_not_found
     | Some (_id, post) => ret (json (PostDoc _id post))
     end)%async
    catch_ObjectId.

(** DELETE api/posts/:id *)
Definition deletePost (id : string) (req_user_id : ObjectId) : DB -> Response * DB :=
  try_catch
    (post <- findById posts id ;;
     match post with
     | None => ret post_not_found
     | Some (_id, post) =>
         if negb (String.eqb (post_user post) req_user_id) then ret not_authorized
         else
           remove_post _id ;;;
           ret (json (Msg "Post removed"))
     end)%async
    catch_ObjectId.

(** PUT api/posts/like/:id.  [oid] is the [_id] generated for the new
    entry of [likes]. *)
Definition like (id : string) (req_user_id : ObjectId) (oid : ObjectId)
  : DB -> Response * DB :=
  try_catch
    (post <- findById posts id ;;
     post <- deref post ;;
     let '(_id, post) := post in
     if (0 <? length (List.filter (fun l => String.eqb (like_user l) req_user_id)
                                  (likes post)))%nat
     then ret (mkResponse 400 (Msg "Post already liked"))
     else
       let post := set_likes post (unshift (mkLike oid req_user_id) (likes post)) in
       save_post _id post ;;;
       ret (json (LikesDoc (likes post))))%async
    catch_all.

(** PUT api/posts/unlike/:id *)
Definition unlike (id : string) (req_user_id : ObjectId) : DB -> Response * DB :=
  try_catch
    (post <- findById posts id ;;
     post <- deref post ;;
     let '(_id, post) := post in
     if Nat.eqb (length (List.filter (fun l => String.eqb (like_user l) req_user_id)
                                     (likes post))) 0
     then ret (mkResponse 400 (Msg "Post has not yet been liked"))
     else
       let removeIndex := indexOf req_user_id (map like_user (likes post)) in
       let post := set_likes post (splice (likes post) removeIndex 1) in
       save_post _id post ;;;
       ret (json (LikesDoc (likes post))))%async
    catch_all.

(** POST api/posts/comment/:id.  [oid] and [now] are the generated
    [_id] and the [date] default of the new comment. *)
Definition addComment (id : string) (req_user_id : ObjectId) (text : option string)
    (oid : ObjectId) (now : Z) : DB -> Response * DB :=
  fun db =>
    let errors := check_not_empty "text" "Text is required" text in
    if negb (Nat.eqb (length errors) 0) then (mkResponse 400 (Errors errors), db)
    else
      try_catch
        (user <- findById_identity users req_user_id ;;
         post <- findById posts id ;;
         user <- deref user ;;
         let newComment := mkComment oid req_user_id (default "" text)
                                     (user_name user) (user_avatar user) now in
         post <- deref post ;;
         let '(_id, post) := post in
         let post := set_comments post (unshift newComment (comments post)) in
         save_post _id post ;;;
         ret (json (CommentsDoc (comments post))))%async
        catch_all db.

(** DELETE api/posts/comment/:id/:comment_id *)
Definition removeComment (id : string) (comment_id_param : string)
    (req_user_id : ObjectId) : DB -> Response * DB :=
  try_catch
    (post <- findById posts id ;;
     post <- deref post ;;
     let '(_id, post) := post in
     let comment :=
       List.find (fun c => String.eqb (comment_id c) comment_id_param)
                 (comments post) in
     match comment with
     | None => ret (mkResponse 404 (Msg "Comment does not exist"))
     | Some comment =>
         if negb (String.eqb (comment_user comment) req_user_id)
         then ret not_authorized
         else
           let removeIndex :=
             indexOf req_user_id (map comment_user (comments post)) in
           let post := set_comments post (splice (comments post) removeIndex 1) in
           save_post _id post ;;;
           ret (json (CommentsDoc (comments post)))
     end)%async
    catch_all.

(** The requests that change a post. *)
Inductive Mutation :=
| LikeReq (id : string) (req_user_id oid : ObjectId)
| UnlikeReq (id : string) (req_user_id : ObjectId)
| AddCommentReq (id : string) (req_user_id : ObjectId) (text : option string)
                (oid : ObjectId) (now : Z)
| RemoveCommentReq (id comment_id_param : string) (req_user_id : ObjectId)
| DeletePostReq (id : string) (req_user_id : ObjectId).

Definition run (m : Mutation) : DB -> Response * DB :=
  match m with
  | LikeReq id uid oid => like id uid oid
  | UnlikeReq id uid => unlike id uid
  | AddCommentReq id uid text oid now => addComment id uid text oid now
  | RemoveCommentReq id cid uid => removeComment id cid uid
  | DeletePostReq id uid => deletePost id uid
  end.

End Handlers.

End PostsApi.

(** ** Strings of the profile form *)

(** [s.split(',')] *)
Fixpoint split_comma (s : string) : list string :=
  match s with
  | EmptyString => [""]
  | String c s' =>
      if Ascii.eqb c "," then "" :: split_comma s'
      else match split_comma s' with
           | [] => [String c ""]
           | piece :: pieces => String c piece :: pieces
           end
  end.

(** A string holds the UTF-8 bytes of the JavaScript string.

    [String.prototype.trim] strips the white space and line terminators
    of ECMAScript.  In one byte: U+0009 to U+000D and U+0020. *)
Definition is_space (c : ascii) : bool :=
  let n := nat_of_ascii c in
  (Nat.eqb n 32 || Nat.leb 9 n && Nat.leb n 13)%bool.

(** In two bytes: U+00A0 (C2 A0). *)
Definition is_space2 (c1 c2 : ascii) : bool :=
  (Nat.eqb (nat_of_ascii c1) 194 && Nat.eqb (nat_of_ascii c2) 160)%bool.

(** In three bytes: U+1680 (E1 9A 80), U+2000 to U+200A (E2 80 80 to
    E2 80 8A), U+2028 and U+2029 (E2 80 A8, E2 80 A9), U+202F (E2 80 AF),
    U+205F (E2 81 9F), U+3000 (E3 80 80) and U+FEFF (EF BB BF). *)
Definition is_space3 (c1 c2 c3 : ascii) : bool :=
  let n1 := nat_of_ascii c1 in
  let n2 := nat_of_ascii c2 in
  let n3 := nat_of_ascii c3 in
  (Nat.eqb n1 225 && Nat.eqb n2 154 && Nat.eqb n3 128
   || Nat.eqb n1 226 && Nat.eqb n2 128
      && (Nat.leb 128 n3 && Nat.leb n3 138 || Nat.eqb n3 168 || Nat.eqb n3 169
          || Nat.eqb n3 175)
   || Nat.eqb n1 226 && Nat.eqb n2 129 && Nat.eqb n3 159
   || Nat.eqb n1 227 && Nat.eqb n2 128 && Nat.eqb n3 128
   || Nat.eqb n1 239 && Nat.eqb n2 187 && Nat.eqb n3 191)%bool.

(** [s.trimStart()] *)
Fixpoint trim_start (s : string) : string :=
  match s with
  | EmptyString => ""
  | String c1 s1 =>
      if is_space c1 then trim_start s1
      else
        match s1 with
        | EmptyString => s
        | String c2 s2 =>
            if is_space2 c1 c2 then trim_start s2
            else
              match s2 with
              | EmptyString => s
              | String c3 s3 => if is_space3 c1 c2 c3 then trim_start s3 else s
              end
        end
  end.

(** [s.trimEnd()]: the bytes of [s] up to the longest tail that is white
    space throughout. *)
Fixpoint trim_end (s : string) : string :=
  match s with
  | EmptyString => ""
  | String c s' =>
      if String.eqb (trim_start s) "" then "" else String c (trim_end s')
  end.

Definition trim (s : string) : string := trim_end (trim_start s).

(** ** routes/api/profile.js *)

Module ProfileApi.

(** The object [profileFields] that POST api/profile builds. *)
Record ProfileFields := mkProfileFields {
  pf_user : ObjectId;
  pf_attrs : gmap string string;
  pf_skills : option (list string);
  pf_social : gmap string string
}.

(** [if (body[key]) obj[key] = body[key];] *)
Definition assign_if_truthy (key : string) (req_body obj : gmap string string)
  : gmap string string :=
  match req_body !! key with
  | Some v => if truthy (Some v) then <[key := v]> obj else obj
  | None => obj
  end.

Definition build_profileFields (req_user_id : string) (req_body : gmap string string)
  : ProfileFields :=
  let fields := ∅ in
  let fields := assign_if_truthy "company" req_body fields in
  let fields := assign_if_truthy "website" req_body fields in
  let fields := assign_if_truthy "location" req_body fields in
  let fields := assign_if_truthy "bio" req_body fields in
  let fields := assign_if_truthy "status" req_body fields in
  let fields := assign_if_truthy "githubusername" req_body fields in
  let skills :=
    match req_body !! "skills" with
    | Some v => if truthy (Some v) then Some (map trim (split_comma v)) else None
    | None => None
    end in
  let social := ∅ in
  let social := assign_if_truthy "youtube" req_body social in
  let social := assign_if_truthy "facebook" req_body social in
  let social := assign_if_truthy "twitter" req_body social in
  let social := assign_if_truthy "instagram" req_body social in
  let social := assign_if_truthy "linkedin" req_body social in
  mkProfileFields req_user_id fields skills social.

(** The guarded assignments for a list of names, in order. *)
Definition assign_all (keys : list string) (req_body obj : gmap string string)
  : gmap string string :=
  foldl (fun o key => assign_if_truthy key req_body o) obj keys.

(** The names that the two groups of assignments read from the body. *)
Definition top_level_fields : list string :=
  ["company"; "website"; "location"; "bio"; "status"; "githubusername"].

Definition social_platforms : list string :=
  ["youtube"; "facebook"; "twitter"; "instagram"; "linkedin"].

(** The two checks of POST api/profile pass. *)
Definition accepted_profile (req_body : gmap string string) : Prop :=
  isEmpty (req_body !! "status") = false /\
  isEmpty (req_body !! "skills") = false.

(** [{ $set: profileFields }]: each path present in [profileFields]
    replaces the stored one, [social] as a whole; the other paths stay. *)
Definition set_fields (pf : ProfileFields) (p : Profile) : Profile :=
  mkProfile (profile_id p) (pf_user pf) (pf_attrs pf ∪ attrs p)
            (default (skills p) (pf_skills pf)) (pf_social pf) (experience p).

(** [new Profile(profileFields)] with the generated [_id]. *)
Definition new_Profile (oid : ObjectId) (pf : ProfileFields) : Profile :=
  mkProfile oid (pf_user pf) (pf_attrs pf) (default [] (pf_skills pf))
            (pf_social pf) [].

(** The first document of the collection whose [user] is the given
    identity. *)
Definition first_of_user (user : string) (l : list Profile) : option Profile :=
  List.find (fun p => String.eqb (profile_user p) user) l.

(** [Profile.findOne({ user })] *)
Definition findOne (user : string) : Async (option Profile) :=
  fun db => (inr (first_of_user user (profiles db)), db).

Fixpoint update_first (user : string) (f : Profile -> Profile) (l : list Profile)
  : option Profile * list Profile :=
  match l with
  | [] => (None, [])
  | p :: l' =>
      if String.eqb (profile_user p) user then (Some (f p), f p :: l')
      else let '(r, l'') := update_first user f l' in (r, p :: l'')
  end.

(** [Profile.findOneAndUpdate({ user }, { $set: pf }, { new: true })] *)
Definition findOneAndUpdate (user : string) (pf : ProfileFields)
  : Async (option Profile) :=
  fun db =>
    let '(r, ps) := update_first user (set_fields pf) (profiles db) in
    (inr r, set_profiles db ps).

Fixpoint replace_by_id (p : Profile) (l : list Profile) : list Profile :=
  match l with
  | [] => []
  | q :: l' =>
      if String.eqb (profile_id q) (profile_id p) then p :: l'
      else q :: replace_by_id p l'
  end.

(** [profile.save()] of a document that was loaded from the collection. *)
Definition save_profile (p : Profile) : Async unit :=
  fun db => (inr tt, set_profiles db (replace_by_id p (profiles db))).

(** [profile.save()] of a new document. *)
Definition insert_profile (p : Profile) : Async unit :=
  fun db => (inr tt, set_profiles db (profiles db ++ [p])).

Fixpoint remove_first (user : string) (l : list Profile) : list Profile :=
  match l with
  | [] => []
  | p :: l' =>
      if String.eqb (profile_user p) user then l' else p :: remove_first user l'
  end.

Definition catch_all (err : Error) : Response := server_error.

Definition json_profile (profile : option Profile) : Response :=
  match profile with
  | Some p => json (ProfileDoc p)
  | None => json Null
  end.

(** POST api/profile.  [oid] is the [_id] generated when a document is
    created. *)
Definition upsertProfile (req_user_id : string) (req_body : gmap string string)
    (oid : ObjectId) : DB -> Response * DB :=
  fun db =>
    let errors :=
      (check_not_empty "status" "Status is required" (req_body !! "status") ++
       check_not_empty "skills" "Skills are required" (req_body !! "skills"))%list in
    if negb (Nat.eqb (length errors) 0) then (mkResponse 400 (Errors errors), db)
    else
      let profileFields := build_profileFields req_user_id req_body in
      try_catch
        (profile <- findOne req_user_id ;;
         match profile with
         | Some _ =>
             profile <- findOneAndUpdate req_user_id profileFields ;;
             ret (json_profile profile)
         | None =>
             let profile := new_Profile oid profileFields in
             insert_profile profile ;;;
             ret (json (ProfileDoc profile))
         end)%async
        catch_all db.

(** DELETE api/profile *)
Definition deleteProfile (req_user_id : string) : DB -> Response * DB :=
  try_catch
    (fun db =>
       let db := set_profiles db (remove_first req_user_id (profiles db)) in
       let db := mkDB (delete req_user_id (users db)) (posts db) (profiles db) in
       (inr (json (Msg "User deleted")), db))
    catch_all.

(** The body of PUT api/profile/experience. *)
Record ExperienceInput := mkExperienceInput {
  in_title : option string;
  in_company : option string;
  in_location : option string;
  in_from : option string;
  in_to : option string;
  in_current : option bool;
  in_description : option string
}.

(** The three checks of PUT api/profile/experience pass. *)
Definition accepted_experience (input : ExperienceInput) : Prop :=
  isEmpty (in_title input) = false /\
  isEmpty (in_company input) = false /\
  isEmpty (in_from input) = false.

(** The entry that the array makes of [newExp]: the fields as the schema
    cast them, under the [_id] generated for it. *)
Definition new_experience (oid : string) (fields : ExperienceInput) : Experience :=
  mkExperience oid (in_title fields) (in_company fields) (in_location fields)
               (in_from fields) (in_to fields) (in_current fields)
               (in_description fields).

Section Experience.

(** The [experience] paths of the Profile schema.  models/Profile.js is
    not among the sources, so what the schema does to a new entry is a
    parameter: the fields as they are stored ([from] and [to] cast to
    dates, [current] with its default), or nothing when the casts or the
    validators fail and [profile.save()] rejects. *)
Variable castExperience : ExperienceInput -> option ExperienceInput.

(** PUT api/profile/experience.  [oid] is the [_id] generated for the new
    entry of [experience]. *)
Definition addExperience (req_user_id : string) (req_body : ExperienceInput)
    (oid : ObjectId) : DB -> Response * DB :=
  fun db =>
    let errors :=
      (check_not_empty "title" "Title is required" (in_title req_body) ++
       check_not_empty "company" "Company is required" (in_company req_body) ++
       check_not_empty "from" "From date is required" (in_from req_body))%list in
    if negb (Nat.eqb (length errors) 0) then (mkResponse 400 (Errors errors), db)
    else
      try_catch
        (profile <- findOne req_user_id ;;
         profile <- deref profile ;;
         match castExperience req_body with
         | None => throw SaveValidationError
         | Some newExp =>
             let newExp := new_experience oid newExp in
             let profile :=
               set_experience profile (unshift newExp (experience profile)) in
             save_profile profile ;;;
             ret (json (ProfileDoc profile))
         end)%async
        catch_all db.

End Experience.

(** DELETE api/profile/experience/:exp_id *)
Definition removeExperience (req_user_id : string) (exp_id_param : string)
  : DB -> Response * DB :=
  try_catch
    (profile <- findOne req_user_id ;;
     profile <- deref profile ;;
     let removeIndex := indexOf exp_id_param (map exp_id (experience profile)) in
     let profile := set_experience profile (splice (experience profile) removeIndex 1) in
     save_profile profile ;;;
     ret (json (ProfileDoc profile)))%async
    catch_all.

End ProfileApi.

(** ** routes/api/profile.js: POST api/profile on any body of scalars *)

(** [ProfileApi.upsertProfile] takes the body as the forms of the client
    send it, every field a string.  Here the fields are any scalar of
    JSON, which brings in the other falsy values, the [split] of a
    [skills] that is no string, and the casts and validators of the
    schema. *)
Module ProfileJsonApi.

Import ProfileApi.

(** The scalars of JSON; a number is an integer here. *)
Inductive JValue :=
| JNull
| JBool (b : bool)
| JNumber (n : Z)
| JString (s : string).

(** Truthiness: [undefined], [null], [false], [0] and [""] are falsy. *)
Definition truthy_json (v : option JValue) : bool :=
  match v with
  | None | Some JNull => false
  | Some (JBool b) => b
  | Some (JNumber n) => negb (n =? 0)
  | Some (JString s) => negb (String.eqb s "")
  end.

(** [.not().isEmpty()] looks at the value as a string: [undefined] and
    [null] become the empty string, a boolean its name and a number its
    digits. *)
Definition isEmpty_json (v : option JValue) : bool :=
  match v with
  | None | Some JNull => true
  | Some (JBool _) | Some (JNumber _) => false
  | Some (JString s) => String.eqb s ""
  end.

Record JsonValidationError := mkJsonValidationError {
  jerr_param : string;
  jerr_msg : string;
  jerr_value : option JValue
}.

Definition check_json (param msg : string) (v : option JValue)
  : list JsonValidationError :=
  if isEmpty_json v then [mkJsonValidationError param msg v] else [].

(** What becomes of the request. *)
Inductive JsonOutcome :=
| Refused (errors : list JsonValidationError)  (* 400 { errors } *)
| Returned (profile : option Profile)          (* res.json(profile) *)
| ServerError                                  (* the 500 of the catch *)
| Unhandled (err : Error).
  (* thrown before the try: the handler's promise rejects, nothing is sent *)

(** [profileFields], with the values as the body has them. *)
Record JsonFields := mkJsonFields {
  jf_user : ObjectId;
  jf_attrs : gmap string JValue;
  jf_skills : option (list string);
  jf_social : gmap string JValue
}.

(** [if (body[key]) obj[key] = body[key];] *)
Definition assign_if_truthy_json (key : string) (req_body obj : gmap string JValue)
  : gmap string JValue :=
  match req_body !! key with
  | Some v => if truthy_json (Some v) then <[key := v]> obj else obj
  | None => obj
  end.

Definition assign_all_json (keys : list string) (req_body obj : gmap string JValue)
  : gmap string JValue :=
  foldl (fun o key => assign_if_truthy_json key req_body o) obj keys.

(** The lines that build [profileFields]; [skills.split] is no function
    when a truthy [skills] is a boolean or a number. *)
Definition build_profileFields_json (req_user_id : string)
    (req_body : gmap string JValue) : Error + JsonFields :=
  let fields := ∅ in
  let fields := assign_if_truthy_json "company" req_body fields in
  let fields := assign_if_truthy_json "website" req_body fields in
  let fields := assign_if_truthy_json "location" req_body fields in
  let fields := assign_if_truthy_json "bio" req_body fields in
  let fields := assign_if_truthy_json "status" req_body fields in
  let fields := assign_if_truthy_json "githubusername" req_body fields in
  let skills :=
    match req_body !! "skills" with
    | Some (JString v) =>
        inr (if truthy_json (Some (JString v))
             then Some (map trim (split_comma v)) else None)
    | Some v => if truthy_json (Some v) then inl TypeError else inr None
    | None => inr None
    end in
  match skills with
  | inl err => inl err
  | inr skills =>
      let social := ∅ in
      let social := assign_if_truthy_json "youtube" req_body social in
      let social := assign_if_truthy_json "facebook" req_body social in
      let social := assign_if_truthy_json "twitter" req_body social in
      let social := assign_if_truthy_json "instagram" req_body social in
      let social := assign_if_truthy_json "linkedin" req_body social in
      inr (mkJsonFields req_user_id fields skills social)
  end.

Definition try_catch_json (body : Async JsonOutcome) (handler : Error -> JsonOutcome)
  : DB -> JsonOutcome * DB :=
  fun db =>
    match body db with
    | (inr r, db') => (r, db')
    | (inl e, db') => (handler e, db')
    end.

Section Schema.

(** The Profile schema, models/Profile.js, is not among the sources; two
    things it decides are parameters.  The cast of a truthy scalar to a
    String path, which [new Profile] and the update both apply: *)
Variable castString : JValue -> string.

(** and whether the validators that [save()] runs on a new document pass
    (the status path is required). *)
Variable validNewProfile : Profile -> bool.

Definition cast_fields (fields : JsonFields) : ProfileFields :=
  mkProfileFields (jf_user fields) (castString <$> jf_attrs fields)
                  (jf_skills fields) (castString <$> jf_social fields).

(** [profile.save()] of a new document. *)
Definition save_new_profile (p : Profile) : Async unit :=
  if validNewProfile p then insert_profile p else throw SaveValidationError.

(** POST api/profile *)
Definition upsertProfileJson (req_user_id : string) (req_body : gmap string JValue)
    (oid : ObjectId) : DB -> JsonOutcome * DB :=
  fun db =>
    let errors :=
      (check_json "status" "Status is required" (req_body !! "status") ++
       check_json "skills" "Skills are required" (req_body !! "skills"))%list in
    if negb (Nat.eqb (length errors) 0) then (Refused errors, db)
    else
      match build_profileFields_json req_user_id req_body with
      | inl err => (Unhandled err, db)
      | inr fields =>
          let profileFields := cast_fields fields in
          try_catch_json
            (profile <- findOne req_user_id ;;
             match profile with
             | Some _ =>
                 profile <- findOneAndUpdate req_user_id profileFields ;;
                 ret (Returned profile)
             | None =>
                 let profile := new_Profile oid profileFields in
                 save_new_profile profile ;;;
                 ret (Returned (Some profile))
             end)%async
            (fun err => ServerError) db
      end.

End Schema.

(** A response of [ProfileApi.upsertProfile], read as an outcome. *)
Definition as_outcome (r : Response) : JsonOutcome :=
  match body r with
  | Errors errors =>
      Refused (map (fun e => mkJsonValidationError (err_param e) (err_msg e)
                                                   (JString <$> err_value e))
                   errors)
  | ProfileDoc p => Returned (Some p)
  | Null => Returned None
  | _ => ServerError
  end.

(** JavaScript's [String(v)], which is how a boolean or a number is cast
    to a String path. *)
Definition js_String (v : JValue) : string :=
  match v with
  | JNull => "null"
  | JBool true => "true"
  | JBool false => "false"
  | JNumber n => NilZero.string_of_int (Z.to_int n)
  | JString s => s
  end.

(** The status path is required. *)
Definition has_status (p : Profile) : bool :=
  bool_decide (is_Some (attrs p !! "status")).

End ProfileJsonApi.

(** ** A concrete id format and sample documents *)

Definition is_hex (c : ascii) : bool :=
  let n := nat_of_ascii c in
  (Nat.leb 48 n && Nat.leb n 57 || Nat.leb 97 n && Nat.leb n 102
   || Nat.leb 65 n && Nat.leb n 70)%bool.

Definition lower (c : ascii) : ascii :=
  let n := nat_of_ascii c in
  if (Nat.leb 65 n && Nat.leb n 90)%bool then ascii_of_nat (n + 32) else c.

Fixpoint lowercase (s : string) : string :=
  match s with
  | EmptyString => ""
  | String c s' => String (lower c) (lowercase s')
  end.

(** A cast as the driver has it for strings of 24 hexadecimal digits: the
    id is written with the digits in lower case. *)
Definition hex24 (s : string) : option ObjectId :=
  if (Nat.eqb (String.length s) 24 && forallb is_hex (list_ascii_of_string s))%bool
  then Some (lowercase s) else None.

(** An [experience] schema for the examples: title, company and a [from]
    date of the form YYYY-MM-DD are required, [current] is false unless
    it is sent. *)
Definition is_digit (c : ascii) : bool :=
  let n := nat_of_ascii c in (Nat.leb 48 n && Nat.leb n 57)%bool.

Definition is_date (s : string) : bool :=
  match list_ascii_of_string s with
  | [y1; y2; y3; y4; d1; m1; m2; d2; a1; a2] =>
      (forallb is_digit [y1; y2; y3; y4; m1; m2; a1; a2]
       && Ascii.eqb d1 "-" && Ascii.eqb d2 "-")%bool
  | _ => false
  end.

Definition dated_entries (input : ProfileApi.ExperienceInput)
  : option ProfileApi.ExperienceInput :=
  if (negb (isEmpty (ProfileApi.in_title input))
      && negb (isEmpty (ProfileApi.in_company input))
      && from_option is_date false (ProfileApi.in_from input)
      && from_option is_date true (ProfileApi.in_to input))%bool
  then Some (ProfileApi.mkExperienceInput
               (ProfileApi.in_title input) (ProfileApi.in_company input)
               (ProfileApi.in_location input) (ProfileApi.in_from input)
               (ProfileApi.in_to input)
               (Some (default false (ProfileApi.in_current input)))
               (ProfileApi.in_description input))
  else None.

Module Sample.

Definition alice : ObjectId := "5f00000000000000000000a1".
Definition bob : ObjectId := "5f00000000000000000000b2".

Definition post1 : ObjectId := "5f0000000000000000000001".
Definition missing : ObjectId := "5f00000000000000000000ff".
Definition malformed : string := "not-an-id".

Definition older : Comment :=
  mkComment "5f0000000000000000000c01" bob "first" "Bob" "bob.png" 100.
Definition newer : Comment :=
  mkComment "5f0000000000000000000c02" bob "second" "Bob" "bob.png" 200.

Definition hello : Post :=
  mkPost alice "hello" "Alice" "alice.png"
         [mkLike "5f0000000000000000000d01" bob] [newer; older] 50.

Definition job1 : Experience :=
  mkExperience "5f0000000000000000000e01" (Some "Engineer") (Some "Acme")
               None (Some "2019-01-01") None (Some true) None.
Definition job2 : Experience :=
  mkExperience "5f0000000000000000000e02" (Some "Intern") (Some "Initech")
               None (Some "2017-06-01") (Some "2018-06-01") None None.

Definition alice_profile : Profile :=
  mkProfile "5f0000000000000000000f01" alice
            {[ "status" := "Developer"; "company" := "Acme" ]}
            ["HTML"; "CSS"] {[ "twitter" := "https://twitter.com/alice" ]}
            [job1; job2].

Definition db0 : DB :=
  mkDB {[ alice := mkUser "Alice" "alice.png"; bob := mkUser "Bob" "bob.png" ]}
       {[ post1 := hello ]}
       [alice_profile].

Definition new_job : ProfileApi.ExperienceInput :=
  ProfileApi.mkExperienceInput (Some "Lead") (Some "Globex") None
                               (Some "2021-03-01") None (Some true) None.

Definition absent_entry : ObjectId := "5f0000000000000000000e99".

Definition first_body : gmap string string :=
  {[ "status" := "Developer"; "skills" := "HTML, CSS";
     "company" := "Acme"; "twitter" := "https://twitter.com/bob" ]}.

Definition second_body : gmap string string :=
  {[ "status" := "Senior developer"; "skills" := "HTML,CSS,Rocq";
     "website" := "https://bob.example"; "youtube" := "https://youtube.com/bob" ]}.

Definition update_body : gmap string string :=
  {[ "status" := "Developer"; "skills" := "HTML,CSS" ]}.

(** Another spelling of [post1]. *)
Definition post1_upper : string := "5F0000000000000000000001".

(** Another spelling of [alice]. *)
Definition alice_upper : string := "5F00000000000000000000A1".

(** A body that shares no field with [first_body]. *)
Definition disjoint_body : gmap string string :=
  {[ "website" := "https://bob.example"; "youtube" := "https://youtube.com/bob" ]}.

Definition json_body : gmap string ProfileJsonApi.JValue :=
  {[ "status" := ProfileJsonApi.JString "Developer";
     "skills" := ProfileJsonApi.JString "HTML,CSS" ]}.

Definition undated_job : ProfileApi.ExperienceInput :=
  ProfileApi.mkExperienceInput (Some "Lead") (Some "Globex") None
                               (Some "yesterday") None None None.

End Sample.

(** ** routes/api/profile.js: the routes that populate *)

Module ProfilePublicApi.

(** What the public routes send: a profile goes out with its [user] path
    populated, that is replaced by the name and avatar of the user
    document, or by [null] when no user document has that [_id]. *)
Inductive PublicBody :=
| PublicMsg (msg : string)
| PublicText (text : string)
| Populated (profile : Profile) (user : option User)
| PopulatedList (profiles : list (Profile * option User)).

Record PublicResponse := mkPublicResponse {
  public_status : Z;
  public_body : PublicBody
}.

Definition public_json (b : PublicBody) : PublicResponse := mkPublicResponse 200 b.

Definition public_server_error : PublicResponse :=
  mkPublicResponse 500 (PublicText "Server Error").

Definition profile_not_found : PublicResponse :=
  mkPublicResponse 400 (PublicMsg "Profile not found").

Definition try_catch_public (body : Async PublicResponse)
    (handler : Error -> PublicResponse) : DB -> PublicResponse * DB :=
  fun db =>
    match body db with
    | (inr r, db') => (r, db')
    | (inl e, db') => (handler e, db')
    end.

(** [.populate('user', ['name', 'avatar'])] on one document. *)
Definition populate (db : DB) (p : Profile) : Profile * option User :=
  (p, users db !! profile_user p).

(** GET api/profile *)
Definition getProfiles : DB -> PublicResponse * DB :=
  try_catch_public
    (fun db => (inr (public_json (PopulatedList (map (populate db) (profiles db)))), db))
    (fun err => public_server_error).

Definition no_profile : PublicResponse :=
  mkPublicResponse 400 (PublicMsg "There is no profile for this user").

(** [Profile.findOne({ user: req.user.id }).populate('user', ['name', 'avatar'])]
    with the identity of the token. *)
Definition findOne_mine (req_user_id : string)
  : Async (option (Profile * option User)) :=
  fun db =>
    (inr (option_map (populate db)
                     (ProfileApi.first_of_user req_user_id (profiles db))), db).

(** GET api/profile/me, with the populated [user]. *)
Definition getMe (req_user_id : string) : DB -> PublicResponse * DB :=
  try_catch_public
    (profile <- findOne_mine req_user_id ;;
     match profile with
     | None => ret no_profile
     | Some (profile, user) => ret (public_json (Populated profile user))
     end)%async
    (fun err => public_server_error).

Section Handlers.

(** The ObjectId cast of the store driver, here applied to the [user]
    path of the query. *)
Variable castObjectId : string -> option ObjectId.

(** [Profile.findOne({ user: id }).populate('user', ['name', 'avatar'])]
    with an id that comes from the URL: the query casts it to the
    ObjectId that the [user] paths are compared with. *)
Definition findOne_populated (id : string) : Async (option (Profile * option User)) :=
  fun db =>
    match castObjectId id with
    | Some user =>
        (inr (option_map (populate db) (ProfileApi.first_of_user user (profiles db))),
         db)
    | None => (inl (CastError "ObjectId"), db)
    end.

(** GET api/profile/user/:user_id *)
Definition getProfileByUser (user_id : string) : DB -> PublicResponse * DB :=
  try_catch_public
    (profile <- findOne_populated user_id ;;
     match profile with
     | None => ret profile_not_found
     | Some (profile, user) => ret (public_json (Populated profile user))
     end)%async
    (fun err =>
       if decide (kind err = Some "ObjectId") then profile_not_found
       else public_server_error).

End Handlers.

End ProfilePublicApi.

(** The post that a request addresses. *)
Definition mutation_id (m : PostsApi.Mutation) : string :=
  match m with
  | PostsApi.LikeReq id _ _ => id
  | PostsApi.UnlikeReq id _ => id
  | PostsApi.AddCommentReq id _ _ _ _ => id
  | PostsApi.RemoveCommentReq id _ _ => id
  | PostsApi.DeletePostReq id _ => id
  end.

(** ** Reading strings *)

(** The number of occurrences of a character. *)
Fixpoint count_char (c : ascii) (s : string) : nat :=
  match s with
  | EmptyString => 0
  | String c' s' => ((if Ascii.eqb c' c then 1 else 0) + count_char c s')%nat
  end.

(** The bytes of one white space character or line terminator. *)
Definition white (w : string) : bool :=
  match w with
  | String c1 EmptyString => is_space c1
  | String c1 (String c2 EmptyString) => is_space2 c1 c2
  | String c1 (String c2 (String c3 EmptyString)) => is_space3 c1 c2 c3
  | _ => false
  end.

(** Whether a string starts with white space. *)
Definition leading (s : string) : bool :=
  match s with
  | String c1 s1 =>
      (is_space c1
       || match s1 with
          | String c2 s2 =>
              is_space2 c1 c2
              || match s2 with
                 | String c3 _ => is_space3 c1 c2 c3
                 | EmptyString => false
                 end
          | EmptyString => false
          end)%bool
  | EmptyString => false
  end.

(** A string that is white space throughout. *)
Inductive blank : string -> Prop :=
| blank_empty : blank ""
| blank_more (w s : string) : white w = true -> blank s -> blank (w ++ s).

(** * Properties *)

(** ** Arrays *)

Lemma map_fmap {A B : Type} (f : A -> B) (l : list A) : map f l = f <$> l.
Proof. induction l as [|a l IH]; simpl; [reflexivity | by rewrite IH]. Qed.

Lemma indexOf_range (x : string) (l : list string) :
  -1 <= indexOf x l < Z.of_nat (length l).
Proof.
  induction l as [|y l IH]; simpl; [lia|].
  destruct (String.eqb y x); [lia|].
  destruct (Z.ltb_spec (indexOf x l) 0); lia.
Qed.

Lemma indexOf_lookup (x : string) (l : list string) :
  0 <= indexOf x l -> l !! Z.to_nat (indexOf x l) = Some x.
Proof.
  induction l as [|y l IH]; simpl; [lia|].
  destruct (String.eqb_spec y x) as [ -> | Hne ]; [reflexivity|].
  destruct (Z.ltb_spec (indexOf x l) 0) as [Hneg|Hpos]; [lia|].
  intros _. rewrite Z2Nat.inj_add by lia. rewrite Nat.add_1_r. simpl.
  apply IH, Hpos.
Qed.

Lemma indexOf_In (x : string) (l : list string) :
  In x l -> 0 <= indexOf x l.
Proof.
  induction l as [|y l IH]; simpl; [tauto|].
  destruct (String.eqb_spec y x) as [ -> | Hne ]; [lia|].
  intros [Heq|Hin]; [congruence|].
  specialize (IH Hin). destruct (Z.ltb_spec (indexOf x l) 0); lia.
Qed.

Lemma indexOf_not_In (x : string) (l : list string) :
  ~ In x l -> indexOf x l = -1.
Proof.
  induction l as [|y l IH]; simpl; [reflexivity|].
  intros Hnot. destruct (String.eqb_spec y x) as [ -> | Hne ]; [tauto|].
  rewrite IH by tauto. reflexivity.
Qed.

Lemma indexOf_head (x : string) (l : list string) : indexOf x (x :: l) = 0.
Proof. simpl. by rewrite String.eqb_refl. Qed.

(** A [splice] at an index that is not negative deletes that position
    (and nothing when the index is past the end). *)
Lemma splice_delete {A : Type} (l : list A) (i : Z) :
  0 <= i -> splice l i 1 = delete (Z.to_nat i) l.
Proof.
  intros Hi. unfold splice. rewrite delete_take_drop.
  destruct (Z.ltb_spec i 0) as [?|_]; [lia|].
  destruct (Z.le_gt_cases i (Z.of_nat (length l))) as [Hle|Hgt].
  - rewrite Z.min_l by lia. by rewrite Nat.add_1_r.
  - rewrite Z.min_r by lia. rewrite Nat2Z.id.
    rewrite !take_ge, !drop_ge by lia. reflexivity.
Qed.

(** A [splice] at [-1], the index of a value that was not found, deletes
    the last element. *)
Lemma splice_minus_1 {A : Type} (l : list A) :
  splice l (-1) 1 = take (length l - 1) l.
Proof.
  unfold splice. change (-1 <? 0) with true. cbv iota.
  destruct l as [|a l]; [reflexivity|].
  rewrite Z.max_l by (simpl length; lia).
  replace (Z.to_nat (Z.of_nat (length (a :: l)) + -1))
    with (length (a :: l) - 1)%nat by lia.
  rewrite drop_ge by (simpl length; lia). by rewrite app_nil_r.
Qed.

Lemma splice_head {A : Type} (x : A) (l : list A) : splice (x :: l) 0 1 = l.
Proof. rewrite splice_delete by lia. reflexivity. Qed.

Lemma splice_sublist {A : Type} (l : list A) (i : Z) :
  0 <= i -> splice l i 1 `sublist_of` l.
Proof. intros Hi. rewrite splice_delete by done. apply sublist_delete. Qed.

Lemma filter_eqb_empty {A : Type} (f : A -> string) (x : string) (l : list A) :
  length (List.filter (fun a => String.eqb (f a) x) l) = 0%nat <-> ~ In x (map f l).
Proof.
  induction l as [|a l IH]; simpl; [tauto|].
  destruct (String.eqb_spec (f a) x) as [Heq|Hne]; simpl.
  - split; [discriminate | intros H; exfalso; apply H; by left].
  - rewrite IH. tauto.
Qed.

(** ** Posts *)

Import PostsApi.

(** Unfolds a handler down to the tests it makes. *)
Ltac unfold_handler :=
  unfold deletePost, getPost, like, unlike, addComment, removeComment, createPost,
    try_catch, bind, findById, findById_identity, deref, save_post, remove_post,
    ret, throw, catch_ObjectId, PostsApi.catch_all, unshift;
  unfold ObjectId in *.

Section PostsProperties.

Variable castObjectId : string -> option ObjectId.

Lemma deletePost_missing (db : DB) (id key uid : string) :
  castObjectId id = Some key -> posts db !! key = None ->
  deletePost castObjectId id uid db = (post_not_found, db).
Proof. intros Hcast Hnone. unfold_handler. by rewrite Hcast, Hnone. Qed.

Lemma deletePost_malformed (db : DB) (id uid : string) :
  castObjectId id = None ->
  deletePost castObjectId id uid db = (post_not_found, db).
Proof. intros Hcast. unfold_handler. by rewrite Hcast. Qed.

Lemma deletePost_not_owner (db : DB) (id key uid : string) (post : Post) :
  castObjectId id = Some key -> posts db !! key = Some post ->
  post_user post <> uid ->
  deletePost castObjectId id uid db = (not_authorized, db).
Proof.
  intros Hcast Hpost Hne. unfold_handler. rewrite Hcast, Hpost. simpl.
  by destruct (String.eqb_spec (post_user post) uid).
Qed.

Lemma deletePost_owner (db : DB) (id key uid : string) (post : Post) :
  castObjectId id = Some key -> posts db !! key = Some post ->
  post_user post = uid ->
  deletePost castObjectId id uid db
  = (json (Msg "Post removed"), set_posts db (delete key (posts db))).
Proof.
  intros Hcast Hpost Heq. unfold_handler. rewrite Hcast, Hpost. simpl.
  by destruct (String.eqb_spec (post_user post) uid).
Qed.

(** No post under the id that the string casts to, or a string that is no
    ObjectId: the three routes without a null check answer 500 from their
    [catch]. *)
Lemma no_post_server_error (db : DB) (id uid cid oid : string) :
  (forall key, castObjectId id = Some key -> posts db !! key = None) ->
  like castObjectId id uid oid db = (server_error, db) /\
  unlike castObjectId id uid db = (server_error, db) /\
  removeComment castObjectId id cid uid db = (server_error, db).
Proof.
  intros Hno. unfold_handler.
  destruct (castObjectId id) as [key|]; [|done].
  by rewrite (Hno key eq_refl).
Qed.

Lemma removeComment_not_author (db : DB) (id key cid uid : string)
    (post : Post) (c : Comment) :
  castObjectId id = Some key -> posts db !! key = Some post ->
  List.find (fun c => String.eqb (comment_id c) cid) (comments post) = Some c ->
  comment_user c <> uid ->
  removeComment castObjectId id cid uid db = (not_authorized, db).
Proof.
  intros Hcast Hpost Hfind Hne. unfold_handler. rewrite Hcast, Hpost. simpl.
  rewrite Hfind. by destruct (String.eqb_spec (comment_user c) uid).
Qed.

(** What an accepted removal does: it deletes the first comment whose
    author is the requester. *)
Lemma removeComment_author (db : DB) (id key cid uid : string)
    (post : Post) (c : Comment) :
  castObjectId id = Some key -> posts db !! key = Some post ->
  List.find (fun c => String.eqb (comment_id c) cid) (comments post) = Some c ->
  comment_user c = uid ->
  let cs := delete (Z.to_nat (indexOf uid (map comment_user (comments post))))
                   (comments post) in
  removeComment castObjectId id cid uid db
  = (json (CommentsDoc cs),
     set_posts db (<[key := set_comments post cs]> (posts db))).
Proof.
  intros Hcast Hpost Hfind Heq. unfold_handler. rewrite Hcast, Hpost. simpl.
  rewrite Hfind.
  destruct (String.eqb_spec (comment_user c) uid) as [_|]; [|done].
  simpl. rewrite splice_delete; [done|].
  apply indexOf_In. apply in_map_iff. exists c. split; [done|].
  by apply find_some in Hfind as [? _].
Qed.

(** The comment that an id identifies, when ids are not shared. *)
Lemma find_comment_unique (cs : list Comment) (c : Comment) :
  NoDup (map comment_id cs) -> In c cs ->
  List.find (fun c' => String.eqb (comment_id c') (comment_id c)) cs = Some c.
Proof.
  induction cs as [|c' cs IH]; simpl; [tauto|].
  intros Hnodup Hin. apply NoDup_cons in Hnodup as [Hnotin Hnodup].
  rewrite list_elem_of_In in Hnotin.
  destruct (String.eqb_spec (comment_id c') (comment_id c)) as [Heq|Hne].
  - destruct Hin as [ -> | Hin ]; [done|].
    exfalso. apply Hnotin. rewrite Heq. by apply in_map.
  - destruct Hin as [ -> | Hin ]; [done|]. by apply IH.
Qed.

(** C2. For identities A <> B, [deletePost] by B on a post of A and
    [removeComment] by B on the comment of A that the comment id
    identifies both answer 401 "User not authorized", a response that is
    neither of the two 404 responses, and leave the whole store, hence the
    post, its likes and its comments, as it was.  The post is the one
    stored under the [_id] that the id of the URL casts to. *)
Theorem not_owner_forbidden_and_unchanged
    (db : DB) (id key : string) (post : Post) (A B : string) :
  A <> B ->
  castObjectId id = Some key ->
  posts db !! key = Some post ->
  (post_user post = A ->
   deletePost castObjectId id B db = (not_authorized, db)) /\
  (forall (cid : string) (c : Comment),
     List.find (fun c => String.eqb (comment_id c) cid) (comments post) = Some c ->
     comment_user c = A ->
     removeComment castObjectId id cid B db = (not_authorized, db)) /\
  status not_authorized = 401 /\
  not_authorized <> post_not_found /\
  not_authorized <> mkResponse 404 (Msg "Comment does not exist").
Proof.
  intros Hne Hcast Hpost. repeat split; try discriminate.
  - intros Howner. eapply deletePost_not_owner; eauto. congruence.
  - intros cid c Hfind Hauthor. eapply removeComment_not_author; eauto. congruence.
Qed.

Lemma like_liked (db : DB) (id key uid oid : string) (post : Post) :
  castObjectId id = Some key -> posts db !! key = Some post ->
  In uid (map like_user (likes post)) ->
  like castObjectId id uid oid db
  = (mkResponse 400 (Msg "Post already liked"), db).
Proof.
  intros Hcast Hpost Hin. unfold_handler. rewrite Hcast, Hpost. simpl.
  destruct (length (List.filter _ (likes post))) eqn:Hlen; [|done].
  apply filter_eqb_empty in Hlen. tauto.
Qed.

Lemma like_fresh (db : DB) (id key uid oid : string) (post : Post) :
  castObjectId id = Some key -> posts db !! key = Some post ->
  ~ In uid (map like_user (likes post)) ->
  let ls := mkLike oid uid :: likes post in
  like castObjectId id uid oid db
  = (json (LikesDoc ls), set_posts db (<[key := set_likes post ls]> (posts db))).
Proof.
  intros Hcast Hpost Hin. unfold_handler. rewrite Hcast, Hpost. simpl.
  apply filter_eqb_empty in Hin. by rewrite Hin.
Qed.

Lemma unlike_not_liked (db : DB) (id key uid : string) (post : Post) :
  castObjectId id = Some key -> posts db !! key = Some post ->
  ~ In uid (map like_user (likes post)) ->
  unlike castObjectId id uid db
  = (mkResponse 400 (Msg "Post has not yet been liked"), db).
Proof.
  intros Hcast Hpost Hin. unfold_handler. rewrite Hcast, Hpost. simpl.
  apply filter_eqb_empty in Hin. by rewrite Hin.
Qed.

Lemma unlike_liked (db : DB) (id key uid : string) (post : Post) :
  castObjectId id = Some key -> posts db !! key = Some post ->
  In uid (map like_user (likes post)) ->
  let ls := delete (Z.to_nat (indexOf uid (map like_user (likes post))))
                   (likes post) in
  unlike castObjectId id uid db
  = (json (LikesDoc ls), set_posts db (<[key := set_likes post ls]> (posts db))).
Proof.
  intros Hcast Hpost Hin. unfold_handler. rewrite Hcast, Hpost. simpl.
  destruct (length (List.filter _ (likes post))) eqn:Hlen.
  { apply filter_eqb_empty in Hlen. tauto. }
  simpl. by rewrite splice_delete by by apply indexOf_In.
Qed.

(** [addComment] leaves the store as it was or puts one comment at the
    head of the post's comments. *)
Lemma addComment_step (db : DB) (id uid : string) (text : option string)
    (oid : string) (now : Z) :
  (addComment castObjectId id uid text oid now db).2 = db \/
  exists key post c,
    castObjectId id = Some key /\ posts db !! key = Some post /\
    (addComment castObjectId id uid text oid now db).2
    = set_posts db (<[key := set_comments post (c :: comments post)]> (posts db)).
Proof.
  unfold_handler.
  destruct (negb _); [by left|].
  destruct (castObjectId id) as [key|] eqn:Hcast; [|by left].
  destruct (users db !! uid) as [user|]; [|by left].
  destruct (posts db !! key) as [post|] eqn:Hpost; [|by left].
  right. by eexists _, _, _.
Qed.

(** [removeComment] leaves the store as it was or rewrites the post's
    comments. *)
Lemma removeComment_step (db : DB) (id cid uid : string) :
  (removeComment castObjectId id cid uid db).2 = db \/
  exists key post cs,
    castObjectId id = Some key /\ posts db !! key = Some post /\
    (removeComment castObjectId id cid uid db).2
    = set_posts db (<[key := set_comments post cs]> (posts db)).
Proof.
  unfold_handler.
  destruct (castObjectId id) as [key|] eqn:Hcast; [|by left].
  destruct (posts db !! key) as [post|] eqn:Hpost; [|by left].
  simpl. destruct (List.find _ (comments post)) as [c|]; [|by left].
  destruct (negb _); [by left|].
  right. by eexists _, _, _.
Qed.

(** [deletePost] leaves the store as it was or deletes the post. *)
Lemma deletePost_step (db : DB) (id uid : string) :
  (deletePost castObjectId id uid db).2 = db \/
  exists key,
    castObjectId id = Some key /\
    (deletePost castObjectId id uid db).2 = set_posts db (delete key (posts db)).
Proof.
  unfold_handler.
  destruct (castObjectId id) as [key|] eqn:Hcast; [|by left].
  destruct (posts db !! key) as [post|] eqn:Hpost; [|by left].
  simpl. destruct (negb _); [by left | right; by eexists].
Qed.

(** After any request, the likes of a post that is still stored are a
    sublist of what they were, or what they were under one entry of a
    user who had none. *)
Lemma run_likes (m : Mutation) (db : DB) (id : string) (post' : Post) :
  posts (run castObjectId m db).2 !! id = Some post' ->
  exists post, posts db !! id = Some post /\
    (likes post' `sublist_of` likes post \/
     exists l, likes post' = l :: likes post /\
               ~ In (like_user l) (map like_user (likes post))).
Proof.
  assert (Hnone : forall pid : string, castObjectId pid = None ->
            forall key, castObjectId pid = Some key -> posts db !! key = None)
    by (intros pid Hc key; by rewrite Hc).
  assert (Hmiss : forall pid key0 : string,
            castObjectId pid = Some key0 -> posts db !! key0 = None ->
            forall key, castObjectId pid = Some key -> posts db !! key = None)
    by (intros pid key0 Hc Hp key; rewrite Hc; by intros [= <-]).
  destruct m as [pid uid oid|pid uid|pid uid text oid now|pid cid uid|pid uid]; simpl.
  - destruct (castObjectId pid) as [key|] eqn:Hcast;
      [destruct (posts db !! key) as [post|] eqn:Hpost|].
    + destruct (in_dec string_dec uid (map like_user (likes post))) as [Hin|Hin].
      * rewrite (like_liked _ _ _ _ _ _ Hcast Hpost Hin). by eauto.
      * rewrite (like_fresh _ _ _ _ _ _ Hcast Hpost Hin). simpl.
        destruct (decide (key = id)) as [ -> | Hne ].
        -- rewrite lookup_insert_eq. intros [= <-]. exists post. split; [done|].
           right. by eexists.
        -- rewrite lookup_insert_ne by done. by eauto.
    + destruct (no_post_server_error db pid uid "" oid (Hmiss _ _ Hcast Hpost))
        as [-> _]. by eauto.
    + destruct (no_post_server_error db pid uid "" oid (Hnone _ Hcast))
        as [-> _]. by eauto.
  - destruct (castObjectId pid) as [key|] eqn:Hcast;
      [destruct (posts db !! key) as [post|] eqn:Hpost|].
    + destruct (in_dec string_dec uid (map like_user (likes post))) as [Hin|Hin].
      * rewrite (unlike_liked _ _ _ _ _ Hcast Hpost Hin). simpl.
        destruct (decide (key = id)) as [ -> | Hne ].
        -- rewrite lookup_insert_eq. intros [= <-]. exists post. split; [done|].
           left. apply sublist_delete.
        -- rewrite lookup_insert_ne by done. by eauto.
      * rewrite (unlike_not_liked _ _ _ _ _ Hcast Hpost Hin). by eauto.
    + destruct (no_post_server_error db pid uid "" "" (Hmiss _ _ Hcast Hpost))
        as (_ & -> & _). by eauto.
    + destruct (no_post_server_error db pid uid "" "" (Hnone _ Hcast))
        as (_ & -> & _). by eauto.
  - destruct (addComment_step db pid uid text oid now)
      as [ -> | (key & post & c & _ & Hpost & ->) ]; [by eauto|]. simpl.
    destruct (decide (key = id)) as [ -> | Hne ].
    + rewrite lookup_insert_eq. intros [= <-]. by eauto.
    + rewrite lookup_insert_ne by done. by eauto.
  - destruct (removeComment_step db pid cid uid)
      as [ -> | (key & post & cs & _ & Hpost & ->) ]; [by eauto|]. simpl.
    destruct (decide (key = id)) as [ -> | Hne ].
    + rewrite lookup_insert_eq. intros [= <-]. by eauto.
    + rewrite lookup_insert_ne by done. by eauto.
  - destruct (deletePost_step db pid uid) as [ -> | (key & _ & ->) ]; [by eauto|].
    simpl. destruct (decide (key = id)) as [ -> | Hne ].
    + by rewrite lookup_delete_eq.
    + rewrite lookup_delete_ne by done. by eauto.
Qed.

Lemma NoDup_likes_step (ls ls' : list Like) :
  NoDup (map like_user ls) ->
  (ls' `sublist_of` ls \/
   exists l, ls' = l :: ls /\ ~ In (like_user l) (map like_user ls)) ->
  NoDup (map like_user ls').
Proof.
  intros Hnodup [Hsub|(l & -> & Hfresh)].
  - rewrite map_fmap in *. eapply sublist_NoDup; [exact Hnodup|].
    by apply fmap_sublist.
  - simpl. apply NoDup_cons. by rewrite list_elem_of_In.
Qed.

(** C3. A post whose likes hold at most one entry per user keeps that
    property, as long as it is stored, through every like, unlike,
    addComment, removeComment and deletePost request (on this post or on
    any other); and a like repeated by the same identity on the post,
    under any spelling of its id, is answered 400 "Post already liked",
    which is not the 500 of the [catch], with the store, hence the likes
    and their number, left as the first like left them. *)
Theorem likes_stay_unique (db : DB) (id : string) (post : Post) :
  posts db !! id = Some post ->
  NoDup (map like_user (likes post)) ->
  (forall (m : Mutation) (post' : Post),
     posts (run castObjectId m db).2 !! id = Some post' ->
     NoDup (map like_user (likes post'))) /\
  (forall req_id uid oid1 oid2 : string,
     castObjectId req_id = Some id ->
     let db1 := (like castObjectId req_id uid oid1 db).2 in
     like castObjectId req_id uid oid2 db1
     = (mkResponse 400 (Msg "Post already liked"), db1)) /\
  mkResponse 400 (Msg "Post already liked") <> server_error.
Proof.
  intros Hpost Hnodup. split; [|split; [|discriminate]].
  - intros m post' Hpost'.
    destruct (run_likes m db id post' Hpost') as (post0 & Hpost0 & Hstep).
    rewrite Hpost in Hpost0. injection Hpost0 as <-.
    by eapply NoDup_likes_step.
  - intros req_id uid oid1 oid2 Hcast db1. subst db1.
    destruct (in_dec string_dec uid (map like_user (likes post))) as [Hin|Hin].
    + rewrite (like_liked _ _ _ _ _ _ Hcast Hpost Hin). simpl.
      by apply like_liked with (key := id) (post := post).
    + rewrite (like_fresh _ _ _ _ _ _ Hcast Hpost Hin). simpl.
      apply like_liked
        with (key := id) (post := set_likes post (mkLike oid1 uid :: likes post));
        [done | simpl; by rewrite lookup_insert_eq | simpl; by left].
Qed.

(** C7, amended.  [deletePost] turns an id that is no ObjectId into the
    404 "Post not found" instead of a server error, and that is the very
    response a well-formed id gets under whose [_id] no post is stored:
    the two cases are not told apart.  Nothing is deleted in either
    case. *)
Theorem deletePost_malformed_as_missing (db : DB) (good key bad uid : string) :
  castObjectId good = Some key ->
  posts db !! key = None ->
  castObjectId bad = None ->
  deletePost castObjectId bad uid db = (post_not_found, db) /\
  deletePost castObjectId good uid db = (post_not_found, db) /\
  status post_not_found = 404 /\ post_not_found <> server_error.
Proof.
  intros Hgood Hnone Hbad. repeat split; try discriminate.
  - by apply deletePost_malformed.
  - by eapply deletePost_missing.
Qed.

End PostsProperties.

(** ** Profiles *)

Import ProfileApi.

Ltac unfold_profile_handler :=
  unfold upsertProfile, addExperience, removeExperience,
    try_catch, bind, findOne, findOneAndUpdate, deref, save_profile,
    insert_profile, ret, throw, ProfileApi.catch_all, unshift, json_profile.

Lemma set_experience_id (p : Profile) : set_experience p (experience p) = p.
Proof. by destruct p. Qed.

Lemma set_experience_twice (p : Profile) (es es' : list Experience) :
  set_experience (set_experience p es) es' = set_experience p es'.
Proof. reflexivity. Qed.

(** After [save()] of a document loaded by [findOne], [findOne] finds the
    saved document. *)
Lemma first_of_user_saved (uid : string) (l : list Profile) (p p' : Profile) :
  first_of_user uid l = Some p ->
  profile_id p' = profile_id p -> profile_user p' = uid ->
  first_of_user uid (replace_by_id p' l) = Some p'.
Proof.
  unfold first_of_user. intros Hfind Hid Huser.
  induction l as [|q l IH]; simpl in *; [done|].
  destruct (String.eqb_spec (profile_user q) uid) as [Hq|Hq].
  - injection Hfind as ->. rewrite Hid, String.eqb_refl. simpl.
    by rewrite Huser, String.eqb_refl.
  - destruct (String.eqb (profile_id q) (profile_id p')); simpl.
    + by rewrite Huser, String.eqb_refl.
    + destruct (String.eqb_spec (profile_user q) uid); [done|]. by apply IH.
Qed.

Lemma first_of_user_user (uid : string) (l : list Profile) (p : Profile) :
  first_of_user uid l = Some p -> profile_user p = uid.
Proof.
  unfold first_of_user. intros Hfind. apply find_some in Hfind as [_ Heq].
  by apply String.eqb_eq.
Qed.

Lemma first_of_user_updated (uid : string) (f : Profile -> Profile)
    (l : list Profile) (p : Profile) :
  first_of_user uid l = Some p -> profile_user (f p) = uid ->
  (update_first uid f l).1 = Some (f p) /\
  first_of_user uid (update_first uid f l).2 = Some (f p).
Proof.
  unfold first_of_user. intros Hfind Huser.
  induction l as [|q l IH]; simpl in *; [done|].
  destruct (String.eqb_spec (profile_user q) uid) as [Hq|Hq].
  - injection Hfind as ->. simpl. by rewrite Huser, String.eqb_refl.
  - destruct (update_first uid f l) as [r l'']. simpl in *.
    destruct (String.eqb_spec (profile_user q) uid); [done|]. by apply IH.
Qed.

Lemma first_of_user_inserted (uid : string) (l : list Profile) (p : Profile) :
  first_of_user uid l = None -> profile_user p = uid ->
  first_of_user uid (l ++ [p]) = Some p.
Proof.
  unfold first_of_user. intros Hfind Huser.
  induction l as [|q l IH]; simpl in *.
  - by rewrite Huser, String.eqb_refl.
  - destruct (String.eqb (profile_user q) uid); [done|]. by apply IH.
Qed.

Section ExperienceProperties.

Variable castExperience : ExperienceInput -> option ExperienceInput.

Lemma addExperience_found (db : DB) (uid oid : string)
    (input fields : ExperienceInput) (p : Profile) :
  accepted_experience input ->
  first_of_user uid (profiles db) = Some p ->
  castExperience input = Some fields ->
  let p1 := set_experience p (new_experience oid fields :: experience p) in
  addExperience castExperience uid input oid db
  = (json (ProfileDoc p1), set_profiles db (replace_by_id p1 (profiles db))).
Proof.
  intros (Htitle & Hcompany & Hfrom) Hfind Hcast. unfold_profile_handler.
  unfold check_not_empty. rewrite Htitle, Hcompany, Hfrom. simpl.
  by rewrite Hfind, Hcast.
Qed.

(** An entry that the schema does not take: [save()] rejects, the [catch]
    answers 500 and nothing is stored. *)
Lemma addExperience_rejected (db : DB) (uid oid : string) (input : ExperienceInput) :
  accepted_experience input ->
  castExperience input = None ->
  addExperience castExperience uid input oid db = (server_error, db).
Proof.
  intros (Htitle & Hcompany & Hfrom) Hcast. unfold_profile_handler.
  unfold check_not_empty. rewrite Htitle, Hcompany, Hfrom. simpl.
  rewrite Hcast. by destruct (first_of_user uid (profiles db)).
Qed.

(** No profile for the identity: the request is answered by the
    validation (400) or by the [catch] (500), and nothing is stored. *)
Lemma addExperience_no_profile (db : DB) (uid oid : string) (input : ExperienceInput) :
  first_of_user uid (profiles db) = None ->
  (addExperience castExperience uid input oid db).2 = db /\
  (accepted_experience input ->
   addExperience castExperience uid input oid db = (server_error, db)).
Proof.
  intros Hfind. unfold_profile_handler. split.
  - destruct (negb _); [done|]. by rewrite Hfind.
  - intros (Htitle & Hcompany & Hfrom).
    unfold check_not_empty. rewrite Htitle, Hcompany, Hfrom. simpl.
    by rewrite Hfind.
Qed.

Lemma removeExperience_found (db : DB) (uid eid : string) (p : Profile) :
  first_of_user uid (profiles db) = Some p ->
  let p2 := set_experience p
              (splice (experience p) (indexOf eid (map exp_id (experience p))) 1) in
  removeExperience uid eid db
  = (json (ProfileDoc p2), set_profiles db (replace_by_id p2 (profiles db))).
Proof. intros Hfind. unfold_profile_handler. by rewrite Hfind. Qed.

(** An entry id that no entry has: the last entry is spliced out. *)
Lemma removeExperience_absent (db : DB) (uid eid : string) (p : Profile) :
  first_of_user uid (profiles db) = Some p ->
  ~ In eid (map exp_id (experience p)) ->
  (removeExperience uid eid db).1
  = json (ProfileDoc (set_experience p (take (length (experience p) - 1)
                                             (experience p)))).
Proof.
  intros Hfind Hnotin. rewrite (removeExperience_found _ _ _ _ Hfind). simpl.
  by rewrite indexOf_not_In, splice_minus_1.
Qed.

(** C8. On a stored profile, an [addExperience] that passes the checks
    and whose entry the schema takes returns the profile with the new
    entry, under its generated id, at the head of [experience];
    [removeExperience] with that id then returns, and leaves stored, the
    profile as it was before the two requests, so [experience] is its
    prior sequence, in order. *)
Theorem addExperience_removeExperience_roundtrip
    (db : DB) (uid oid : string) (input fields : ExperienceInput) (p : Profile) :
  first_of_user uid (profiles db) = Some p ->
  accepted_experience input ->
  castExperience input = Some fields ->
  exists (p1 : Profile) (e : Experience),
    (addExperience castExperience uid input oid db).1 = json (ProfileDoc p1) /\
    experience p1 = e :: experience p /\
    exp_id e = oid /\
    let db1 := (addExperience castExperience uid input oid db).2 in
    exists p2 : Profile,
      (removeExperience uid (exp_id e) db1).1 = json (ProfileDoc p2) /\
      first_of_user uid (profiles (removeExperience uid (exp_id e) db1).2) = Some p2 /\
      experience p2 = experience p /\
      p2 = p.
Proof.
  intros Hfind Hok Hcast.
  set (p1 := set_experience p (new_experience oid fields :: experience p)).
  exists p1, (new_experience oid fields).
  rewrite (addExperience_found _ _ _ _ _ _ Hok Hfind Hcast). simpl.
  repeat split; [].
  assert (Hfind1 : first_of_user uid (replace_by_id p1 (profiles db)) = Some p1).
  { eapply first_of_user_saved; [exact Hfind | done |].
    simpl. by eapply first_of_user_user. }
  exists p.
  rewrite (removeExperience_found _ _ _ p1) by exact Hfind1.
  simpl. rewrite String.eqb_refl. rewrite splice_head.
  assert (Hback : set_experience p1 (experience p) = p) by by destruct p.
  rewrite Hback. repeat split; [].
  fold p1. eapply first_of_user_saved; [exact Hfind1 | done |].
  by eapply first_of_user_user.
Qed.

End ExperienceProperties.

Lemma assign_if_truthy_lookup (key : string) (req_body obj : gmap string string)
    (k : string) :
  assign_if_truthy key req_body obj !! k
  = if decide (key = k)
    then (if truthy (req_body !! k) then req_body !! k else obj !! k)
    else obj !! k.
Proof.
  unfold assign_if_truthy.
  destruct (decide (key = k)) as [ <- | Hne ].
  - destruct (req_body !! key) as [v|]; [|done].
    destruct (truthy (Some v)); [by rewrite lookup_insert_eq | done].
  - destruct (req_body !! key) as [v|]; [|done].
    destruct (truthy (Some v)); [by rewrite lookup_insert_ne | done].
Qed.

Lemma assign_all_lookup (keys : list string) (req_body obj : gmap string string)
    (k : string) :
  assign_all keys req_body obj !! k
  = if (bool_decide (k ∈ keys) && truthy (req_body !! k))%bool
    then req_body !! k else obj !! k.
Proof.
  unfold assign_all. revert obj.
  induction keys as [|key keys IH]; intros obj; cbn [foldl].
  - rewrite bool_decide_eq_false_2 by apply not_elem_of_nil. done.
  - rewrite IH, assign_if_truthy_lookup.
    destruct (truthy (req_body !! k)) eqn:Htruthy; rewrite ?andb_false_r; simpl.
    + rewrite !andb_true_r.
      destruct (decide (key = k)) as [ <- | Hne ].
      * rewrite (bool_decide_eq_true_2 (key ∈ key :: keys)) by apply list_elem_of_here.
        by destruct (bool_decide (key ∈ keys)).
      * destruct (bool_decide (k ∈ keys)) eqn:Hin.
        -- apply bool_decide_eq_true_1 in Hin.
           by rewrite bool_decide_eq_true_2 by by apply list_elem_of_further.
        -- apply bool_decide_eq_false_1 in Hin.
           rewrite bool_decide_eq_false_2; [done|].
           rewrite elem_of_cons. intros [Heq|Hin']; [by apply Hne | by apply Hin].
    + by destruct (decide (key = k)).
Qed.

Lemma build_profileFields_attrs (uid : string) (req_body : gmap string string) :
  pf_attrs (build_profileFields uid req_body)
  = assign_all top_level_fields req_body ∅.
Proof. reflexivity. Qed.

Lemma build_profileFields_social (uid : string) (req_body : gmap string string) :
  pf_social (build_profileFields uid req_body)
  = assign_all social_platforms req_body ∅.
Proof. reflexivity. Qed.

(** [profileFields] holds a top-level field exactly when the body
    supplies it with a truthy value, and then holds that value. *)
Lemma pf_attrs_lookup (uid : string) (req_body : gmap string string) (k : string) :
  pf_attrs (build_profileFields uid req_body) !! k
  = if (bool_decide (k ∈ top_level_fields) && truthy (req_body !! k))%bool
    then req_body !! k else None.
Proof. by rewrite build_profileFields_attrs, assign_all_lookup, lookup_empty. Qed.

Lemma pf_social_lookup (uid : string) (req_body : gmap string string) (k : string) :
  pf_social (build_profileFields uid req_body) !! k
  = if (bool_decide (k ∈ social_platforms) && truthy (req_body !! k))%bool
    then req_body !! k else None.
Proof. by rewrite build_profileFields_social, assign_all_lookup, lookup_empty. Qed.

Lemma build_profileFields_user (uid : string) (req_body : gmap string string) :
  pf_user (build_profileFields uid req_body) = uid.
Proof. reflexivity. Qed.

(** What an accepted upsert stores and returns: the stored profile under
    [$set], or a new document when the identity has none. *)
Lemma upsertProfile_accepted (db : DB) (uid oid : string)
    (req_body : gmap string string) :
  accepted_profile req_body ->
  let pf := build_profileFields uid req_body in
  let p' := match first_of_user uid (profiles db) with
            | Some p => set_fields pf p
            | None => new_Profile oid pf
            end in
  (upsertProfile uid req_body oid db).1 = json (ProfileDoc p') /\
  first_of_user uid (profiles (upsertProfile uid req_body oid db).2) = Some p'.
Proof.
  intros (Hstatus & Hskills) pf p'. subst p'. unfold_profile_handler.
  unfold check_not_empty. rewrite Hstatus, Hskills. simpl.
  destruct (first_of_user uid (profiles db)) as [p|] eqn:Hfind.
  - destruct (first_of_user_updated uid (set_fields pf) (profiles db) p Hfind eq_refl)
      as [Hres Hstored].
    fold pf. destruct (update_first uid (set_fields pf) (profiles db)) as [r ps].
    simpl in *. by subst r.
  - simpl. split; [done|]. by apply first_of_user_inserted.
Qed.

(** A refused upsert stores nothing. *)
Lemma upsertProfile_refused (db : DB) (uid oid : string)
    (req_body : gmap string string) :
  isEmpty (req_body !! "status") = true \/ isEmpty (req_body !! "skills") = true ->
  (upsertProfile uid req_body oid db).2 = db /\
  status (upsertProfile uid req_body oid db).1 = 400.
Proof.
  intros Hempty. unfold_profile_handler. unfold check_not_empty.
  destruct Hempty as [ -> | -> ]; [|destruct (isEmpty (req_body !! "status"))]; done.
Qed.

Lemma pf_skills_falsy (uid : string) (req_body : gmap string string) :
  truthy (req_body !! "skills") = false ->
  pf_skills (build_profileFields uid req_body) = None.
Proof.
  intros Hfalsy. unfold build_profileFields. cbn [pf_skills].
  destruct (req_body !! "skills") as [v|]; [|done]. by rewrite Hfalsy.
Qed.

(** Under [$set] a path that [profileFields] lacks keeps its value. *)
Lemma upsertProfile_frame (db : DB) (uid oid : string)
    (req_body : gmap string string) (p : Profile) :
  first_of_user uid (profiles db) = Some p ->
  exists p' : Profile,
    first_of_user uid (profiles (upsertProfile uid req_body oid db).2) = Some p' /\
    (forall k : string, truthy (req_body !! k) = false -> attrs p' !! k = attrs p !! k) /\
    (truthy (req_body !! "skills") = false -> skills p' = skills p) /\
    experience p' = experience p.
Proof.
  intros Hfind.
  destruct (isEmpty (req_body !! "status")) eqn:Hstatus;
    [|destruct (isEmpty (req_body !! "skills")) eqn:Hskills].
  - destruct (upsertProfile_refused db uid oid req_body) as [-> _]; [by left|].
    by exists p.
  - destruct (upsertProfile_refused db uid oid req_body) as [-> _]; [by right|].
    by exists p.
  - destruct (upsertProfile_accepted db uid oid req_body) as [_ Hstored]; [done|].
    rewrite Hfind in Hstored. eexists. split; [exact Hstored|].
    split; [|split; [|done]].
    + intros k Hfalsy. unfold set_fields. cbn [attrs].
      rewrite lookup_union_r; [done|].
      by rewrite pf_attrs_lookup, Hfalsy, andb_false_r.
    + intros Hfalsy. unfold set_fields. cbn [skills].
      by rewrite pf_skills_falsy.
Qed.

(** Two bodies that both pass the checks both hold status, so their field
    sets are never disjoint. *)
Lemma accepted_never_disjoint (body1 body2 : gmap string string) :
  accepted_profile body1 -> accepted_profile body2 -> ~ body1 ##ₘ body2.
Proof.
  intros [Hstatus1 _] [Hstatus2 _] Hdisjoint.
  destruct (body1 !! "status") as [v1|] eqn:H1; [|done].
  destruct (body2 !! "status") as [v2|] eqn:H2; [|done].
  by apply (map_disjoint_spec body1 body2) with (i := "status") (x := v1) (y := v2).
Qed.

(** C9, amended.  After an accepted upsert, a second upsert by the same
    identity that passes the two checks (it then supplies status and
    skills again) leaves every top-level field that it does not supply at
    the value the first call gave it, and [social] holds exactly the
    platform keys that the second body supplies, so the keys that it omits
    are gone, whatever the first body had put there.  A second upsert
    that omits status or skills, as every body disjoint from the first
    does, is answered 400 and changes nothing. *)
Theorem upsertProfile_twice
    (db : DB) (uid oid1 oid2 : string) (body1 body2 : gmap string string) :
  accepted_profile body1 ->
  let db1 := (upsertProfile uid body1 oid1 db).2 in
  exists p1 : Profile,
    first_of_user uid (profiles db1) = Some p1 /\
    (forall k : string,
       k ∈ top_level_fields -> truthy (body1 !! k) = true ->
       attrs p1 !! k = body1 !! k) /\
    (accepted_profile body2 ->
     exists p2 : Profile,
       (upsertProfile uid body2 oid2 db1).1 = json (ProfileDoc p2) /\
       first_of_user uid (profiles (upsertProfile uid body2 oid2 db1).2) = Some p2 /\
       (forall k : string,
          truthy (body2 !! k) = false -> attrs p2 !! k = attrs p1 !! k) /\
       (forall k : string,
          social p2 !! k
          = if (bool_decide (k ∈ social_platforms) && truthy (body2 !! k))%bool
            then body2 !! k else None) /\
       (forall k : string, truthy (body2 !! k) = false -> social p2 !! k = None)) /\
    (~ accepted_profile body2 ->
     status (upsertProfile uid body2 oid2 db1).1 = 400 /\
     (upsertProfile uid body2 oid2 db1).2 = db1).
Proof.
  intros Hok1 db1. subst db1.
  destruct (upsertProfile_accepted db uid oid1 body1 Hok1) as [_ Hstored1].
  set (db1 := (upsertProfile uid body1 oid1 db).2) in *.
  set (p1 := match first_of_user uid (profiles db) with
             | Some p => set_fields (build_profileFields uid body1) p
             | None => new_Profile oid1 (build_profileFields uid body1)
             end) in *.
  exists p1. split; [done|]. split; [|split].
  - intros k Hk Hsupplied. subst p1.
    assert (Hpf : pf_attrs (build_profileFields uid body1) !! k = body1 !! k).
    { rewrite pf_attrs_lookup, Hsupplied, bool_decide_eq_true_2 by done. done. }
    destruct (body1 !! k) as [v|] eqn:Hv; [|done].
    destruct (first_of_user uid (profiles db)); [|done].
    unfold set_fields. cbn [attrs]. by apply lookup_union_Some_l.
  - intros Hok2.
    destruct (upsertProfile_accepted db1 uid oid2 body2 Hok2) as [Hres2 Hstored2].
    rewrite Hstored1 in Hres2, Hstored2.
    exists (set_fields (build_profileFields uid body2) p1).
    split; [done|]. split; [done|]. split; [|split].
    + intros k Homitted. unfold set_fields. cbn [attrs].
      rewrite lookup_union_r; [done|].
      by rewrite pf_attrs_lookup, Homitted, andb_false_r.
    + intros k. unfold set_fields. cbn [social]. apply pf_social_lookup.
    + intros k Homitted. unfold set_fields. cbn [social].
      by rewrite pf_social_lookup, Homitted, andb_false_r.
  - intros Hnot.
    assert (Hempty : isEmpty (body2 !! "status") = true \/
                     isEmpty (body2 !! "skills") = true).
    { unfold accepted_profile in Hnot.
      destruct (isEmpty (body2 !! "status")); [by left|].
      destruct (isEmpty (body2 !! "skills")); [by right|]. exfalso. by apply Hnot. }
    destruct (upsertProfile_refused db1 uid oid2 body2 Hempty) as [Hdb Hstatus].
    by split.
Qed.

(** ** The upsert on any body of scalars *)

Import ProfileJsonApi.

Lemma assign_if_truthy_json_lookup (key : string) (req_body obj : gmap string JValue)
    (k : string) :
  assign_if_truthy_json key req_body obj !! k
  = if decide (key = k)
    then (if truthy_json (req_body !! k) then req_body !! k else obj !! k)
    else obj !! k.
Proof.
  unfold assign_if_truthy_json.
  destruct (decide (key = k)) as [ <- | Hne ].
  - destruct (req_body !! key) as [v|]; [|done].
    destruct (truthy_json (Some v)); [by rewrite lookup_insert_eq | done].
  - destruct (req_body !! key) as [v|]; [|done].
    destruct (truthy_json (Some v)); [by rewrite lookup_insert_ne | done].
Qed.

Lemma assign_all_json_lookup (keys : list string) (req_body obj : gmap string JValue)
    (k : string) :
  assign_all_json keys req_body obj !! k
  = if (bool_decide (k ∈ keys) && truthy_json (req_body !! k))%bool
    then req_body !! k else obj !! k.
Proof.
  unfold assign_all_json. revert obj.
  induction keys as [|key keys IH]; intros obj; cbn [foldl].
  - rewrite bool_decide_eq_false_2 by apply not_elem_of_nil. done.
  - rewrite IH, assign_if_truthy_json_lookup.
    destruct (truthy_json (req_body !! k)) eqn:Htruthy; rewrite ?andb_false_r; simpl.
    + rewrite !andb_true_r.
      destruct (decide (key = k)) as [ <- | Hne ].
      * rewrite (bool_decide_eq_true_2 (key ∈ key :: keys)) by apply list_elem_of_here.
        by destruct (bool_decide (key ∈ keys)).
      * destruct (bool_decide (k ∈ keys)) eqn:Hin.
        -- apply bool_decide_eq_true_1 in Hin.
           by rewrite bool_decide_eq_true_2 by by apply list_elem_of_further.
        -- apply bool_decide_eq_false_1 in Hin.
           rewrite bool_decide_eq_false_2; [done|].
           rewrite elem_of_cons. intros [Heq|Hin']; [by apply Hne | by apply Hin].
    + by destruct (decide (key = k)).
Qed.

(** What [profileFields] holds when the lines that build it do not
    throw. *)
Lemma build_profileFields_json_inr (uid : string) (req_body : gmap string JValue)
    (fields : JsonFields) :
  build_profileFields_json uid req_body = inr fields ->
  jf_user fields = uid /\
  jf_attrs fields = assign_all_json top_level_fields req_body ∅ /\
  jf_social fields = assign_all_json social_platforms req_body ∅ /\
  (truthy_json (req_body !! "skills") = false -> jf_skills fields = None).
Proof.
  unfold build_profileFields_json.
  destruct (req_body !! "skills") as [[|b|n|v]|]; simpl.
  - intros [= <-]. by repeat split.
  - destruct b; [done|]. intros [= <-]. by repeat split.
  - destruct (negb (n =? 0)); [done|]. intros [= <-]. by repeat split.
  - intros [= <-]. repeat split; try done. simpl. by intros ->.
  - intros [= <-]. by repeat split.
Qed.

Lemma assign_if_truthy_json_falsy (key k : string) (v : JValue)
    (req_body obj : gmap string JValue) :
  truthy_json (Some v) = false ->
  assign_if_truthy_json key (<[k := v]> req_body) obj
  = assign_if_truthy_json key (delete k req_body) obj.
Proof.
  intros Hfalsy. unfold assign_if_truthy_json.
  destruct (decide (k = key)) as [ -> | Hne ].
  - by rewrite lookup_insert_eq, lookup_delete_eq, Hfalsy.
  - by rewrite lookup_insert_ne, lookup_delete_ne.
Qed.

Lemma build_profileFields_json_falsy (uid k : string) (v : JValue)
    (req_body : gmap string JValue) :
  truthy_json (Some v) = false ->
  build_profileFields_json uid (<[k := v]> req_body)
  = build_profileFields_json uid (delete k req_body).
Proof.
  intros Hfalsy. unfold build_profileFields_json.
  rewrite !(assign_if_truthy_json_falsy _ k v) by done.
  destruct (decide (k = "skills")) as [ -> | Hne ].
  - rewrite lookup_insert_eq, lookup_delete_eq.
    destruct v as [|b|n|v]; simpl in *; by rewrite ?Hfalsy.
  - by rewrite lookup_insert_ne, lookup_delete_ne.
Qed.

Section JsonProperties.

Variable castString : JValue -> string.
Variable validNewProfile : Profile -> bool.

(** The store after the request: as it was, or with the first profile of
    the identity under [$set], or with a new last document. *)
Lemma upsertProfileJson_step (db : DB) (uid oid : string)
    (req_body : gmap string JValue) :
  let result := upsertProfileJson castString validNewProfile uid req_body oid db in
  result.2 = db \/
  exists fields : JsonFields,
    build_profileFields_json uid req_body = inr fields /\
    ((exists p, first_of_user uid (profiles db) = Some p /\
        result.2 = set_profiles db
                     (update_first uid (set_fields (cast_fields castString fields))
                                   (profiles db)).2) \/
     (first_of_user uid (profiles db) = None /\
      result.2 = set_profiles db
                   (profiles db
                    ++ [new_Profile oid (cast_fields castString fields)])%list)).
Proof.
  unfold upsertProfileJson. cbv zeta.
  destruct (negb _); [by left|].
  destruct (build_profileFields_json uid req_body) as [err|fields] eqn:Hbuild;
    [by left|].
  unfold try_catch_json, bind, findOne, findOneAndUpdate, save_new_profile,
    insert_profile, ret, throw.
  destruct (first_of_user uid (profiles db)) as [p|] eqn:Hfind.
  - right. exists fields. split; [done|]. left. exists p. split; [done|].
    by destruct (update_first _ _ _).
  - destruct (validNewProfile _); [|by left].
    right. exists fields. split; [done|]. by right.
Qed.

(** C10. In the upsert, a field sent with a falsy value (the empty string,
    [0], [false] or [null]) is left out of [profileFields] just as a field
    that was not sent: the object built from the body is the same.  The
    value that a stored profile has for the field is therefore kept,
    whatever becomes of the request: a falsy value can neither clear nor
    overwrite it.  The store after the request is the store after the
    request without the field whenever the two pass the same checks (the
    field is not a validated one, or the value is empty for the checks
    too), and then, for a field that is not validated, so is all that
    becomes of the request. *)
Theorem upsertProfile_falsy_as_omitted
    (db : DB) (uid oid : string) (req_body : gmap string JValue)
    (k : string) (v : JValue) :
  truthy_json (Some v) = false ->
  let sent := upsertProfileJson castString validNewProfile uid
                                (<[k := v]> req_body) oid db in
  let omitted := upsertProfileJson castString validNewProfile uid
                                   (delete k req_body) oid db in
  build_profileFields_json uid (<[k := v]> req_body)
  = build_profileFields_json uid (delete k req_body) /\
  (forall p : Profile,
     first_of_user uid (profiles db) = Some p ->
     exists p' : Profile,
       first_of_user uid (profiles sent.2) = Some p' /\
       attrs p' !! k = attrs p !! k /\
       (k = "skills" -> skills p' = skills p)) /\
  (isEmpty_json (Some v) = true \/ (k <> "status" /\ k <> "skills") ->
   sent.2 = omitted.2) /\
  (k <> "status" -> k <> "skills" -> sent = omitted).
Proof.
  intros Hfalsy sent omitted.
  pose proof (build_profileFields_json_falsy uid k v req_body Hfalsy) as Hbuild.
  split; [exact Hbuild|]. split; [|split].
  - intros p Hfind. subst sent.
    destruct (upsertProfileJson_step db uid oid (<[k := v]> req_body))
      as [ -> | (fields & Hfields & [(p0 & Hfind0 & ->) | (Hnone & _)]) ].
    + by exists p.
    + rewrite Hfind in Hfind0. injection Hfind0 as <-.
      destruct (build_profileFields_json_inr _ _ _ Hfields)
        as (Huser & Hattrs & _ & Hskills).
      destruct (first_of_user_updated uid (set_fields (cast_fields castString fields))
                  (profiles db) p Hfind) as [_ Hstored]; [done|].
      eexists. split; [exact Hstored|]. split.
      * unfold set_fields, cast_fields. cbn [attrs pf_attrs].
        rewrite lookup_union_r; [done|].
        rewrite lookup_fmap, Hattrs, assign_all_json_lookup, lookup_insert_eq.
        by rewrite Hfalsy, andb_false_r, lookup_empty.
      * intros ->. unfold set_fields, cast_fields. cbn [skills pf_skills].
        rewrite Hskills; [done|]. by rewrite lookup_insert_eq.
    + congruence.
  - intros Hsame. subst sent omitted. unfold upsertProfileJson. rewrite Hbuild.
    unfold check_json.
    destruct (decide (k = "status")) as [ -> | Hstatus ];
      [|destruct (decide (k = "skills")) as [ -> | Hskills ]].
    + destruct Hsame as [Hempty | [? _]]; [|done].
      rewrite lookup_insert_eq, lookup_delete_eq, Hempty. done.
    + destruct Hsame as [Hempty | [_ ?]]; [|done].
      rewrite lookup_insert_eq, lookup_delete_eq, Hempty.
      rewrite !lookup_insert_ne, !lookup_delete_ne by done.
      by destruct (isEmpty_json (req_body !! "status")).
    + by rewrite !lookup_insert_ne, !lookup_delete_ne.
  - intros Hstatus Hskills. subst sent omitted. unfold upsertProfileJson.
    rewrite Hbuild. by rewrite !lookup_insert_ne, !lookup_delete_ne.
Qed.

(** On a body of strings the handler is [ProfileApi.upsertProfile], as
    long as the schema stores a string as it is and takes a new profile
    that has a status. *)
Lemma upsertProfileJson_strings (db : DB) (uid oid : string)
    (req_body : gmap string string) :
  (forall s, castString (JString s) = s) ->
  (forall p, is_Some (attrs p !! "status") -> validNewProfile p = true) ->
  upsertProfileJson castString validNewProfile uid (JString <$> req_body) oid db
  = (as_outcome (upsertProfile uid req_body oid db).1,
     (upsertProfile uid req_body oid db).2).
Proof.
  intros Hcast Hvalid.
  assert (Hempty : forall k, isEmpty_json ((JString <$> req_body) !! k)
                             = isEmpty (req_body !! k)).
  { intros k. rewrite lookup_fmap. by destruct (req_body !! k). }
  assert (Htruthy : forall k, truthy_json ((JString <$> req_body) !! k)
                              = truthy (req_body !! k)).
  { intros k. rewrite lookup_fmap. by destruct (req_body !! k). }
  assert (Hassign : forall keys,
            castString <$> assign_all_json keys (JString <$> req_body) ∅
            = assign_all keys req_body ∅).
  { intros keys. apply map_eq. intros k.
    rewrite lookup_fmap, assign_all_json_lookup, assign_all_lookup, Htruthy.
    destruct (bool_decide (k ∈ keys) && truthy (req_body !! k))%bool;
      [|by rewrite !lookup_empty].
    rewrite lookup_fmap. destruct (req_body !! k); simpl; by rewrite ?Hcast. }
  unfold upsertProfileJson, upsertProfile, check_json, check_not_empty.
  rewrite !Hempty.
  destruct (isEmpty (req_body !! "status")) eqn:Hstatus;
    destruct (isEmpty (req_body !! "skills")) eqn:Hskills; simpl;
    try (by rewrite !lookup_fmap).
  assert (Hbuild : exists fields,
            build_profileFields_json uid (JString <$> req_body) = inr fields /\
            cast_fields castString fields = build_profileFields uid req_body).
  { unfold build_profileFields_json, build_profileFields. rewrite lookup_fmap.
    destruct (req_body !! "skills") as [v|]; simpl.
    - eexists. split; [reflexivity|]. unfold cast_fields. simpl. f_equal.
      + apply (Hassign top_level_fields).
      + apply (Hassign social_platforms).
    - eexists. split; [reflexivity|]. unfold cast_fields. simpl. f_equal.
      + apply (Hassign top_level_fields).
      + apply (Hassign social_platforms). }
  destruct Hbuild as (fields & -> & ->).
  unfold try_catch_json, try_catch, bind, findOne, findOneAndUpdate,
    save_new_profile, insert_profile, ret, throw, json_profile.
  destruct (first_of_user uid (profiles db)) as [p|] eqn:Hfind.
  - destruct (update_first _ _ _) as [[r|] ps]; done.
  - rewrite Hvalid; [done|].
    unfold new_Profile. cbn [attrs]. rewrite pf_attrs_lookup.
    rewrite bool_decide_eq_true_2 by (unfold top_level_fields; set_solver).
    destruct (req_body !! "status") as [v|]; [|done]. simpl in *.
    rewrite Hstatus. by eexists.
Qed.

End JsonProperties.

(** ** The posts routes on the sample store *)

Import Sample.

Lemma not_owner_forbidden_and_unchanged_witness :
  deletePost hex24 post1_upper bob db0 = (not_authorized, db0) /\
  removeComment hex24 post1 (comment_id older) alice db0 = (not_authorized, db0).
Proof.
  assert (Hne : bob <> alice) by discriminate.
  destruct (not_owner_forbidden_and_unchanged hex24 db0 post1 post1 hello bob alice
              Hne eq_refl eq_refl) as (_ & Hcomment & _).
  assert (Hne' : alice <> bob) by discriminate.
  destruct (not_owner_forbidden_and_unchanged hex24 db0 post1_upper post1 hello
              alice bob Hne' eq_refl eq_refl) as (Hpost & _).
  split.
  - apply Hpost. reflexivity.
  - apply (Hcomment (comment_id older) older); reflexivity.
Defined.

Lemma likes_stay_unique_witness :
  NoDup (map like_user (likes (set_likes hello [mkLike "5f0000000000000000000d02" alice;
                                                mkLike "5f0000000000000000000d01" bob]))) /\
  like hex24 post1 alice "5f0000000000000000000d03"
       (like hex24 post1 alice "5f0000000000000000000d02" db0).2
  = (mkResponse 400 (Msg "Post already liked"),
     (like hex24 post1 alice "5f0000000000000000000d02" db0).2).
Proof.
  assert (Hnodup : NoDup (map like_user (likes hello))).
  { apply NoDup_singleton. }
  destruct (likes_stay_unique hex24 db0 post1 hello eq_refl Hnodup)
    as (Hkeep & Hagain & _).
  split.
  - apply (Hkeep (LikeReq post1 alice "5f0000000000000000000d02")). reflexivity.
  - apply Hagain. reflexivity.
Defined.

(** C1, as the code departs from it.  Bob wrote two comments; he asks to
    delete the older one by its id, and the handler deletes the newer one,
    the first in the array that he wrote: the older comment is what the
    response and the stored post still hold. *)
Theorem removeComment_deletes_first_comment_of_author :
  comments hello = [newer; older] /\
  removeComment hex24 post1 (comment_id older) bob db0
  = (json (CommentsDoc [older]),
     set_posts db0 (<[post1 := set_comments hello [older]]> (posts db0))).
Proof. split; reflexivity. Qed.

(** C4, as the code departs from it.  No post is stored under the id:
    like, unlike and removeComment answer the 500 of their [catch], not a
    404; the store is left as it was. *)
Theorem missing_post_is_server_error :
  hex24 missing = Some missing /\ posts db0 !! missing = None /\
  like hex24 missing bob "5f0000000000000000000d09" db0 = (server_error, db0) /\
  unlike hex24 missing bob db0 = (server_error, db0) /\
  removeComment hex24 missing (comment_id older) bob db0 = (server_error, db0) /\
  status server_error = 500.
Proof. repeat split; reflexivity. Qed.

(** C7, refuted as stated: for [deletePost] an id that is no ObjectId and
    a well-formed id under which nothing is stored get the same response,
    and for [like] the malformed id gets the 500 of the [catch]. *)
Lemma malformed_id_not_distinguished :
  hex24 malformed = None /\ hex24 missing = Some missing /\
  posts db0 !! missing = None /\
  (deletePost hex24 malformed bob db0).1 = (deletePost hex24 missing bob db0).1 /\
  (like hex24 malformed bob "5f0000000000000000000d09" db0).1 = server_error.
Proof. repeat split; reflexivity. Qed.

Lemma deletePost_malformed_as_missing_witness :
  deletePost hex24 malformed bob db0 = (post_not_found, db0) /\
  deletePost hex24 missing bob db0 = (post_not_found, db0).
Proof.
  destruct (deletePost_malformed_as_missing hex24 db0 missing missing malformed bob
              eq_refl eq_refl eq_refl) as (Hbad & Hgood & _).
  split; assumption.
Defined.

(** ** The profile routes on the sample store *)

(** C5, as the code departs from it.  No entry of Alice's two has the
    id: [indexOf] gives [-1] and [splice(-1, 1)] takes the last entry out;
    the profile returned and stored has lost it. *)
Theorem removeExperience_absent_id_removes_last :
  experience alice_profile = [job1; job2] /\
  ~ In absent_entry (map exp_id (experience alice_profile)) /\
  removeExperience alice absent_entry db0
  = (json (ProfileDoc (set_experience alice_profile [job1])),
     set_profiles db0 [set_experience alice_profile [job1]]).
Proof.
  split; [reflexivity|]. split; [|reflexivity].
  simpl. intros [Heq|[Heq|[]]]; discriminate.
Qed.

(** C6, as the code departs from it.  Bob has no profile: an accepted
    [addExperience] reads [experience] of [null] and is answered by the
    500 of the [catch], where GET api/profile/me answers its own 400;
    nothing is stored. *)
Theorem addExperience_without_profile_is_server_error :
  first_of_user bob (profiles db0) = None /\
  accepted_experience new_job /\
  addExperience dated_entries bob new_job "5f0000000000000000000e03" db0
  = (server_error, db0) /\
  status server_error = 500 /\
  ProfilePublicApi.getMe bob db0 = (ProfilePublicApi.no_profile, db0) /\
  ProfilePublicApi.public_status ProfilePublicApi.no_profile = 400.
Proof. repeat split; reflexivity. Qed.

Lemma addExperience_removeExperience_roundtrip_witness :
  exists e : Experience,
    exp_id e = "5f0000000000000000000e03" /\
    (removeExperience alice (exp_id e)
       (addExperience dated_entries alice new_job "5f0000000000000000000e03" db0).2).1
    = json (ProfileDoc alice_profile).
Proof.
  assert (Hok : accepted_experience new_job) by (repeat split; reflexivity).
  destruct (addExperience_removeExperience_roundtrip dated_entries
              db0 alice "5f0000000000000000000e03" new_job new_job alice_profile
              eq_refl Hok eq_refl)
    as (p1 & e & _ & _ & Hid & p2 & Hremoved & _ & _ & Hsame).
  exists e. split; [exact Hid|]. rewrite Hremoved, Hsame. reflexivity.
Defined.

(** C9, refuted as stated: after Bob's first upsert, a second one with a
    body that shares no field with the first is refused by the checks, and
    the twitter link of the first, which the second omits, is still
    there. *)
Lemma disjoint_second_upsert_keeps_social :
  first_body ##ₘ disjoint_body /\
  accepted_profile first_body /\
  let db1 := (upsertProfile bob first_body "5f0000000000000000000f02" db0).2 in
  upsertProfile bob disjoint_body "5f0000000000000000000f03" db1
  = (mkResponse 400 (Errors [mkValidationError "status" "Status is required" None;
                             mkValidationError "skills" "Skills are required" None]),
     db1) /\
  exists p : Profile,
    first_of_user bob (profiles db1) = Some p /\
    social p !! "twitter" = Some "https://twitter.com/bob".
Proof.
  split; [|split; [split; reflexivity|]].
  - apply map_disjoint_spec. intros k x y Hfirst Hsecond.
    unfold first_body, disjoint_body in *.
    apply lookup_insert_Some in Hsecond as [[<- _]|[_ Hsecond]];
      [vm_compute in Hfirst; discriminate|].
    apply lookup_singleton_Some in Hsecond as [<- _].
    vm_compute in Hfirst. discriminate.
  - cbv zeta. split; [reflexivity|]. eexists. split; reflexivity.
Qed.

Lemma upsertProfile_twice_witness :
  exists p2 : Profile,
    first_of_user bob
      (profiles (upsertProfile bob second_body "5f0000000000000000000f03"
                   (upsertProfile bob first_body "5f0000000000000000000f02" db0).2).2)
    = Some p2 /\
    attrs p2 !! "company" = Some "Acme" /\
    social p2 !! "twitter" = None.
Proof.
  assert (Hok1 : accepted_profile first_body) by (split; reflexivity).
  assert (Hok2 : accepted_profile second_body) by (split; reflexivity).
  destruct (upsertProfile_twice db0 bob "5f0000000000000000000f02"
              "5f0000000000000000000f03" first_body second_body Hok1)
    as (p1 & _ & Hfirst & Hsecond & _).
  destruct (Hsecond Hok2) as (p2 & _ & Hstored & Hkept & _ & Hgone).
  exists p2. split; [exact Hstored|]. split.
  - rewrite (Hkept "company") by reflexivity.
    rewrite (Hfirst "company") by (try apply list_elem_of_here; reflexivity).
    reflexivity.
  - apply (Hgone "twitter"). reflexivity.
Defined.

Lemma upsertProfile_falsy_as_omitted_witness :
  exists p' : Profile,
    first_of_user alice
      (profiles (upsertProfileJson js_String has_status alice
                   (<["company" := JNumber 0]> json_body)
                   "5f0000000000000000000f04" db0).2)
    = Some p' /\
    attrs p' !! "company" = Some "Acme".
Proof.
  destruct (upsertProfile_falsy_as_omitted js_String has_status db0 alice
              "5f0000000000000000000f04" json_body "company" (JNumber 0) eq_refl)
    as (_ & Hkept & _).
  destruct (Hkept alice_profile eq_refl) as (p' & Hstored & Hcompany & _).
  exists p'. split; [exact Hstored|]. rewrite Hcompany. reflexivity.
Defined.

(** * Further properties of the routes *)

(** ** Arrays *)

(** Where [indexOf] finds a key: the array splits at the first element
    that carries it. *)
Lemma indexOf_split {A : Type} (f : A -> string) (x : string) (l : list A) :
  In x (map f l) ->
  exists (l1 : list A) (a : A) (l2 : list A),
    l = (l1 ++ a :: l2)%list /\ f a = x /\ ~ In x (map f l1) /\
    indexOf x (map f l) = Z.of_nat (length l1).
Proof.
  induction l as [|b l IH]; simpl; [tauto|].
  intros Hin. destruct (String.eqb_spec (f b) x) as [Heq|Hne].
  - exists [], b, l. simpl. tauto.
  - destruct Hin as [Heq|Hin]; [congruence|].
    destruct (IH Hin) as (l1 & a & l2 & -> & Ha & Hnot & Hidx).
    exists (b :: l1), a, l2. rewrite Hidx. simpl.
    destruct (Z.ltb_spec (Z.of_nat (length l1)) 0); [lia|].
    repeat split; [done| |lia]. intros [?|?]; tauto.
Qed.

Lemma delete_middle {A : Type} (l1 l2 : list A) (a : A) :
  delete (length l1) (l1 ++ a :: l2)%list = (l1 ++ l2)%list.
Proof. induction l1 as [|b l1 IH]; simpl; [done | by rewrite IH]. Qed.

Lemma splice_indexOf {A : Type} (f : A -> string) (x : string) (l1 l2 : list A) (a : A) :
  f a = x -> ~ In x (map f l1) ->
  splice (l1 ++ a :: l2)%list (indexOf x (map f (l1 ++ a :: l2)%list)) 1
  = (l1 ++ l2)%list.
Proof.
  intros Ha Hnot.
  destruct (indexOf_split f x (l1 ++ a :: l2)%list) as (k1 & b & k2 & Heq & Hb & Hk & Hidx).
  { rewrite map_app, in_app_iff. right. simpl. by left. }
  assert (Hlen : length k1 = length l1).
  { destruct (Nat.lt_trichotomy (length k1) (length l1)) as [Hlt|[?|Hgt]]; [|done|].
    - exfalso. apply Hnot. apply in_map_iff. exists b. split; [done|].
      assert (Hl : (l1 ++ a :: l2)%list !! length k1 = Some b)
        by (rewrite Heq; apply list_lookup_middle; done).
      rewrite lookup_app_l in Hl by done.
      apply list_elem_of_In. by eapply list_elem_of_lookup_2.
    - exfalso. apply Hk. apply in_map_iff. exists a. split; [done|].
      assert (Hl : (k1 ++ b :: k2)%list !! length l1 = Some a)
        by (rewrite <- Heq; apply list_lookup_middle; done).
      rewrite lookup_app_l in Hl by done.
      apply list_elem_of_In. by eapply list_elem_of_lookup_2. }
  rewrite Hidx, splice_delete by lia. rewrite Nat2Z.id, Hlen.
  apply delete_middle.
Qed.

(** ** Posts *)

Lemma set_posts_same (db : DB) : set_posts db (posts db) = db.
Proof. by destruct db. Qed.

Lemma set_posts_twice (db : DB) (m1 m2 : gmap string Post) :
  set_posts (set_posts db m1) m2 = set_posts db m2.
Proof. reflexivity. Qed.

Lemma set_likes_back (post : Post) (ls : list Like) :
  set_likes (set_likes post ls) (likes post) = post.
Proof. by destruct post. Qed.

Lemma set_comments_back (post : Post) (cs : list Comment) :
  set_comments (set_comments post cs) (comments post) = post.
Proof. by destruct post. Qed.

Lemma truthy_text (text : string) : text <> "" -> isEmpty (Some text) = false.
Proof. intros Hne. simpl. by destruct (String.eqb_spec text ""). Qed.

Section PostsFurther.

Variable castObjectId : string -> option ObjectId.

(** X1. An accepted [createPost] stores, under the generated id, a post
    of the requester with the text, the name and avatar of the requester's
    user document and no likes or comments, and [getPost] of an id that
    casts to the generated id then returns this post. *)
Theorem createPost_then_getPost
    (db : DB) (uid text id oid : string) (now : Z) (user : User) :
  users db !! uid = Some user ->
  castObjectId id = Some oid ->
  text <> "" ->
  let post := mkPost uid text (user_name user) (user_avatar user) [] [] now in
  let db' := set_posts db (<[oid := post]> (posts db)) in
  createPost uid (Some text) oid now db = (json (PostDoc oid post), db') /\
  getPost castObjectId id db' = (json (PostDoc oid post), db').
Proof.
  intros Huser Hoid Htext post db'. split.
  - unfold_handler. unfold check_not_empty. rewrite (truthy_text _ Htext). simpl.
    by rewrite Huser.
  - unfold_handler. rewrite Hoid. subst db'. simpl. by rewrite lookup_insert_eq.
Qed.

(** X2. [createPost] and [addComment] with a missing or empty text answer
    400 with the one error "Text is required" and store nothing, whatever
    the ids are. *)
Theorem empty_text_refused
    (db : DB) (id uid oid : string) (now : Z) (text : option string) :
  isEmpty text = true ->
  let refusal :=
    mkResponse 400 (Errors [mkValidationError "text" "Text is required" text]) in
  createPost uid text oid now db = (refusal, db) /\
  addComment castObjectId id uid text oid now db = (refusal, db).
Proof.
  intros Hempty. unfold_handler. unfold check_not_empty. by rewrite Hempty.
Qed.

(** X3. A request with a text by an identity without a user document, or
    (for [addComment]) with an id that is no ObjectId or under whose
    [_id] no post is stored, is answered by the 500 of the [catch] and
    stores nothing. *)
Theorem unknown_user_or_post_is_server_error
    (db : DB) (id uid text oid : string) (now : Z) :
  text <> "" ->
  (users db !! uid = None ->
   createPost uid (Some text) oid now db = (server_error, db) /\
   addComment castObjectId id uid (Some text) oid now db = (server_error, db)) /\
  ((forall key, castObjectId id = Some key -> posts db !! key = None) ->
   addComment castObjectId id uid (Some text) oid now db = (server_error, db)).
Proof.
  intros Htext. split.
  - intros Huser. unfold_handler. unfold check_not_empty.
    rewrite (truthy_text _ Htext). simpl. rewrite Huser.
    by destruct (castObjectId id).
  - intros Hpost. unfold_handler. unfold check_not_empty.
    rewrite (truthy_text _ Htext). simpl.
    destruct (castObjectId id) as [key|]; [|done].
    rewrite (Hpost key eq_refl). by destruct (users db !! uid).
Qed.

(** X4. After the owner deleted a post, [getPost] and a second
    [deletePost] of its id answer 404 "Post not found"; every other post,
    the users and the profiles are as they were. *)
Theorem deletePost_owner_then_gone (db : DB) (id key uid : string) (post : Post) :
  castObjectId id = Some key ->
  posts db !! key = Some post ->
  post_user post = uid ->
  let db' := (deletePost castObjectId id uid db).2 in
  (deletePost castObjectId id uid db).1 = json (Msg "Post removed") /\
  getPost castObjectId id db' = (post_not_found, db') /\
  deletePost castObjectId id uid db' = (post_not_found, db') /\
  (forall key' : string, key' <> key -> posts db' !! key' = posts db !! key') /\
  users db' = users db /\ profiles db' = profiles db.
Proof.
  intros Hcast Hpost Howner db'. subst db'.
  rewrite (deletePost_owner _ _ _ _ _ _ Hcast Hpost Howner). simpl.
  split; [done|]. split; [|split; [|split; [|done]]].
  - unfold_handler. rewrite Hcast. simpl. by rewrite lookup_delete_eq.
  - eapply deletePost_missing; [done|]. simpl. by rewrite lookup_delete_eq.
  - intros key' Hne. by rewrite lookup_delete_ne.
Qed.

(** X5. A like by an identity that had none, followed by its unlike,
    gives back the likes in the response and leaves the store exactly as
    it was before the two requests. *)
Theorem like_then_unlike_restores (db : DB) (id key uid oid : string) (post : Post) :
  castObjectId id = Some key ->
  posts db !! key = Some post ->
  ~ In uid (map like_user (likes post)) ->
  like castObjectId id uid oid db
  = (json (LikesDoc (mkLike oid uid :: likes post)),
     (like castObjectId id uid oid db).2) /\
  unlike castObjectId id uid (like castObjectId id uid oid db).2
  = (json (LikesDoc (likes post)), db).
Proof.
  intros Hcast Hpost Hfresh.
  rewrite (like_fresh _ _ _ _ _ _ _ Hcast Hpost Hfresh). simpl. split; [done|].
  set (post1 := set_likes post (mkLike oid uid :: likes post)).
  set (db1 := set_posts db (<[key := post1]> (posts db))).
  assert (Hpost1 : posts db1 !! key = Some post1) by apply lookup_insert_eq.
  rewrite (unlike_liked _ db1 id key uid post1 Hcast Hpost1) by (simpl; by left).
  simpl. rewrite String.eqb_refl. simpl.
  subst db1 post1. rewrite set_posts_twice. cbn [posts set_posts].
  rewrite set_likes_back, insert_insert_eq, insert_id by done.
  by rewrite set_posts_same.
Qed.

(** X6. An accepted unlike takes exactly one entry out of the likes, an
    entry of the requester: the entries of every other identity stay, in
    their order.  When the likes held at most one entry per user, the
    requester has none left and a second unlike answers 400 "Post has not
    yet been liked" without touching the store. *)
Theorem unlike_removes_one_like_of_requester
    (db : DB) (id key uid : string) (post : Post) :
  castObjectId id = Some key ->
  posts db !! key = Some post ->
  In uid (map like_user (likes post)) ->
  exists (l1 : list Like) (l : Like) (l2 : list Like),
    likes post = (l1 ++ l :: l2)%list /\ like_user l = uid /\
    ~ In uid (map like_user l1) /\
    let db' := set_posts db (<[key := set_likes post (l1 ++ l2)%list]> (posts db)) in
    unlike castObjectId id uid db = (json (LikesDoc (l1 ++ l2)%list), db') /\
    (NoDup (map like_user (likes post)) ->
     ~ In uid (map like_user (l1 ++ l2)%list) /\
     unlike castObjectId id uid db'
     = (mkResponse 400 (Msg "Post has not yet been liked"), db')).
Proof.
  intros Hcast Hpost Hin.
  destruct (indexOf_split like_user uid (likes post) Hin)
    as (l1 & l & l2 & Hsplit & Hl & Hnot & Hidx).
  exists l1, l, l2. split; [done|]. split; [done|]. split; [done|].
  assert (Hdel : delete (Z.to_nat (indexOf uid (map like_user (likes post))))
                        (likes post) = (l1 ++ l2)%list).
  { unfold ObjectId in *. rewrite Hidx, Nat2Z.id, Hsplit. apply delete_middle. }
  split.
  - rewrite (unlike_liked _ _ _ _ _ _ Hcast Hpost Hin). simpl. by rewrite Hdel.
  - intros Hnodup.
    assert (Hgone : ~ In uid (map like_user (l1 ++ l2)%list)).
    { rewrite Hsplit, map_app in Hnodup. simpl in Hnodup.
      apply NoDup_app in Hnodup as (_ & Hdisj & Hnodup2).
      apply NoDup_cons in Hnodup2 as [Hnotin2 _].
      rewrite map_app, in_app_iff. intros [?|Hin2]; [done|].
      apply Hnotin2. rewrite Hl. by apply list_elem_of_In. }
    split; [done|].
    eapply unlike_not_liked; [done | apply lookup_insert_eq | done].
Qed.

End PostsFurther.

Section CommentsFurther.

Variable castObjectId : string -> option ObjectId.

Lemma addComment_accepted
    (db : DB) (id key uid text oid : string) (now : Z) (user : User) (post : Post) :
  users db !! uid = Some user ->
  castObjectId id = Some key -> posts db !! key = Some post ->
  text <> "" ->
  let cs := mkComment oid uid text (user_name user) (user_avatar user) now
            :: comments post in
  addComment castObjectId id uid (Some text) oid now db
  = (json (CommentsDoc cs), set_posts db (<[key := set_comments post cs]> (posts db))).
Proof.
  intros Huser Hcast Hpost Htext. unfold_handler. unfold check_not_empty.
  rewrite (truthy_text _ Htext). simpl. by rewrite Hcast, Huser, Hpost.
Qed.

(** X7. An accepted [addComment] answers with the comments under a new
    first comment that carries the generated id, the requester, the text
    and the name and avatar of the requester's user document; a
    [removeComment] of that id by the same identity then answers with the
    prior comments and leaves the store exactly as it was before the two
    requests. *)
Theorem addComment_then_removeComment_restores
    (db : DB) (id key uid text oid : string) (now : Z) (user : User) (post : Post) :
  users db !! uid = Some user ->
  castObjectId id = Some key ->
  posts db !! key = Some post ->
  text <> "" ->
  let c := mkComment oid uid text (user_name user) (user_avatar user) now in
  (addComment castObjectId id uid (Some text) oid now db).1
  = json (CommentsDoc (c :: comments post)) /\
  removeComment castObjectId id oid uid
    (addComment castObjectId id uid (Some text) oid now db).2
  = (json (CommentsDoc (comments post)), db).
Proof.
  intros Huser Hcast Hpost Htext c.
  rewrite (addComment_accepted _ _ _ _ _ _ _ _ _ Huser Hcast Hpost Htext).
  fold c. simpl. split; [done|].
  set (post1 := set_comments post (c :: comments post)).
  set (db1 := set_posts db (<[key := post1]> (posts db))).
  assert (Hpost1 : posts db1 !! key = Some post1) by apply lookup_insert_eq.
  rewrite (removeComment_author _ db1 id key oid uid post1 c Hcast Hpost1);
    [|simpl; by rewrite String.eqb_refl|done].
  simpl. rewrite String.eqb_refl. simpl.
  subst db1 post1. rewrite set_posts_twice. cbn [posts set_posts].
  rewrite set_comments_back, insert_insert_eq, insert_id by done.
  by rewrite set_posts_same.
Qed.

(** X8. On a stored post, a comment id that no comment of the post has is
    answered 404 "Comment does not exist", whoever asks, and nothing is
    stored. *)
Theorem removeComment_unknown_comment
    (db : DB) (id key cid uid : string) (post : Post) :
  castObjectId id = Some key ->
  posts db !! key = Some post ->
  ~ In cid (map comment_id (comments post)) ->
  removeComment castObjectId id cid uid db
  = (mkResponse 404 (Msg "Comment does not exist"), db).
Proof.
  intros Hcast Hpost Hnotin. unfold_handler. rewrite Hcast, Hpost. simpl.
  destruct (List.find _ (comments post)) as [c|] eqn:Hfind; [|done].
  apply find_some in Hfind as [Hin Heq]. apply String.eqb_eq in Heq.
  exfalso. apply Hnotin. rewrite <- Heq. by apply in_map.
Qed.

(** X9. When the comment that the id identifies is the first comment of
    its author in the array, a [removeComment] by the author removes that
    comment and no other: the comments before and after it stay, in their
    order, and the rest of the post is untouched. *)
Theorem removeComment_first_comment_of_author
    (db : DB) (id key cid uid : string) (post : Post)
    (before : list Comment) (c : Comment) (after : list Comment) :
  castObjectId id = Some key ->
  posts db !! key = Some post ->
  comments post = (before ++ c :: after)%list ->
  comment_id c = cid ->
  comment_user c = uid ->
  ~ In cid (map comment_id before) ->
  ~ In uid (map comment_user before) ->
  removeComment castObjectId id cid uid db
  = (json (CommentsDoc (before ++ after)%list),
     set_posts db (<[key := set_comments post (before ++ after)%list]> (posts db))).
Proof.
  intros Hcast Hpost Hsplit Hcid Huid Hids Husers.
  assert (Hfind : List.find (fun c' => String.eqb (comment_id c') cid) (comments post)
                  = Some c).
  { rewrite Hsplit. clear Hsplit Husers.
    induction before as [|b before IH]; simpl.
    - by rewrite Hcid, String.eqb_refl.
    - simpl in Hids. destruct (String.eqb_spec (comment_id b) cid); [tauto|].
      apply IH. tauto. }
  rewrite (removeComment_author _ _ _ _ _ _ _ _ Hcast Hpost Hfind Huid). simpl.
  assert (Hdel : delete (Z.to_nat (indexOf uid (map comment_user (comments post))))
                        (comments post) = (before ++ after)%list).
  { unfold ObjectId in *. rewrite <- splice_delete.
    - rewrite Hsplit. by apply (splice_indexOf comment_user).
    - apply indexOf_In. rewrite Hsplit, map_app, in_app_iff. right. by left. }
  by rewrite Hdel.
Qed.

(** X10. A like, unlike, addComment, removeComment or deletePost request
    changes nothing but the post stored under the [_id] that its id casts
    to: the users, the profiles and every other post stay.  Of any post
    that is stored after the request, the author, text, name, avatar and
    date are what they were, a like or unlike leaves the comments and an
    addComment or removeComment leaves the likes as they were. *)
Theorem post_requests_frame (m : Mutation) (db : DB) :
  let db' := (run castObjectId m db).2 in
  users db' = users db /\
  profiles db' = profiles db /\
  (forall key : string,
     castObjectId (mutation_id m) <> Some key -> posts db' !! key = posts db !! key) /\
  (forall (key : string) (post' : Post),
     posts db' !! key = Some post' ->
     exists post : Post,
       posts db !! key = Some post /\
       post_user post' = post_user post /\ post_text post' = post_text post /\
       post_name post' = post_name post /\ post_avatar post' = post_avatar post /\
       post_date post' = post_date post /\
       match m with
       | LikeReq _ _ _ | UnlikeReq _ _ => comments post' = comments post
       | AddCommentReq _ _ _ _ _ | RemoveCommentReq _ _ _ => likes post' = likes post
       | DeletePostReq _ _ => post' = post
       end).
Proof.
  set (keeps := fun (post' post : Post) =>
         post_user post' = post_user post /\ post_text post' = post_text post /\
         post_name post' = post_name post /\ post_avatar post' = post_avatar post /\
         post_date post' = post_date post /\
         match m with
         | LikeReq _ _ _ | UnlikeReq _ _ => comments post' = comments post
         | AddCommentReq _ _ _ _ _ | RemoveCommentReq _ _ _ => likes post' = likes post
         | DeletePostReq _ _ => post' = post
         end).
  assert (Hrefl : forall post, keeps post post) by (intros; unfold keeps; by destruct m).
  assert (Hset : forall (key : string) (post q : Post),
            castObjectId (mutation_id m) = Some key ->
            posts db !! key = Some post -> keeps q post ->
            let db' := set_posts db (<[key := q]> (posts db)) in
            users db' = users db /\ profiles db' = profiles db /\
            (forall key', castObjectId (mutation_id m) <> Some key' ->
               posts db' !! key' = posts db !! key') /\
            (forall key' post', posts db' !! key' = Some post' ->
               exists post0, posts db !! key' = Some post0 /\ keeps post' post0)).
  { intros key post q Hcast Hpost Hq db'. subst db'. simpl.
    split; [done|]. split; [done|]. split.
    - intros key' Hne. rewrite lookup_insert_ne; [done|]. intros ->. by apply Hne.
    - intros key' post'. destruct (decide (key = key')) as [ <- | Hne ].
      + rewrite lookup_insert_eq. intros [= <-]. by exists post.
      + rewrite lookup_insert_ne by done. intros Hpost'. by exists post'. }
  assert (Hsame : users db = users db /\ profiles db = profiles db /\
                  (forall key' : string, castObjectId (mutation_id m) <> Some key' ->
                     posts db !! key' = posts db !! key') /\
                  (forall key' post', posts db !! key' = Some post' ->
                     exists post0, posts db !! key' = Some post0 /\ keeps post' post0)).
  { repeat split; try done. intros key' post' Hpost'. by exists post'. }
  cbv zeta. fold keeps.
  destruct m as [id uid oid|id uid|id uid text oid now|id cid uid|id uid];
    cbn [run mutation_id] in *.
  - destruct (castObjectId id) as [key|] eqn:Hcast;
      [destruct (posts db !! key) as [post|] eqn:Hpost|].
    + destruct (in_dec string_dec uid (map like_user (likes post))) as [Hin|Hin].
      * by rewrite (like_liked _ _ _ _ _ _ _ Hcast Hpost Hin).
      * rewrite (like_fresh _ _ _ _ _ _ _ Hcast Hpost Hin). cbn [snd].
        by apply (Hset key post).
    + destruct (no_post_server_error castObjectId db id uid "" oid) as [-> _];
        [|done]. intros k. rewrite Hcast. by intros [= <-].
    + destruct (no_post_server_error castObjectId db id uid "" oid) as [-> _];
        [|done]. intros k. by rewrite Hcast.
  - destruct (castObjectId id) as [key|] eqn:Hcast;
      [destruct (posts db !! key) as [post|] eqn:Hpost|].
    + destruct (in_dec string_dec uid (map like_user (likes post))) as [Hin|Hin].
      * rewrite (unlike_liked _ _ _ _ _ _ Hcast Hpost Hin). cbn [snd].
        by apply (Hset key post).
      * by rewrite (unlike_not_liked _ _ _ _ _ _ Hcast Hpost Hin).
    + destruct (no_post_server_error castObjectId db id uid "" "") as (_ & -> & _);
        [|done]. intros k. rewrite Hcast. by intros [= <-].
    + destruct (no_post_server_error castObjectId db id uid "" "") as (_ & -> & _);
        [|done]. intros k. by rewrite Hcast.
  - destruct (addComment_step castObjectId db id uid text oid now)
      as [ -> | (key & post & c & Hcast & Hpost & ->) ]; [done|].
    by apply (Hset key post).
  - destruct (removeComment_step castObjectId db id cid uid)
      as [ -> | (key & post & cs & Hcast & Hpost & ->) ]; [done|].
    by apply (Hset key post).
  - destruct (deletePost_step castObjectId db id uid) as [ -> | (key & Hcast & ->) ];
      [done|]. simpl. repeat split; try done.
    + intros key' Hne. rewrite lookup_delete_ne; [done|]. intros ->. by apply Hne.
    + intros key' post'. destruct (decide (key = key')) as [ <- | Hne ].
      * by rewrite lookup_delete_eq.
      * rewrite lookup_delete_ne by done. intros Hpost'. by exists post'.
Qed.

End CommentsFurther.

(** ** The skills of a profile *)

Lemma append_empty_l (b : string) : "" ++ b = b.
Proof. reflexivity. Qed.

Lemma append_cons (x : ascii) (a b : string) : String x a ++ b = String x (a ++ b).
Proof. reflexivity. Qed.

Lemma append_assoc (a b c : string) : (a ++ b) ++ c = a ++ (b ++ c).
Proof.
  induction a as [|x a IH]; [reflexivity|]. rewrite !append_cons. by f_equal.
Qed.

Lemma append_empty_r (a : string) : a ++ "" = a.
Proof.
  induction a as [|x a IH]; [reflexivity|]. rewrite append_cons. by f_equal.
Qed.

Lemma count_char_append (c : ascii) (a b : string) :
  count_char c (a ++ b) = (count_char c a + count_char c b)%nat.
Proof.
  induction a as [|x a IH]; [reflexivity|].
  rewrite append_cons. simpl. rewrite IH. lia.
Qed.

Lemma split_comma_not_nil (s : string) : split_comma s <> [].
Proof.
  induction s as [|c s IH]; simpl; [done|].
  destruct (Ascii.eqb c ","); [done|]. by destruct (split_comma s).
Qed.

Lemma split_comma_length (s : string) :
  length (split_comma s) = S (count_char "," s).
Proof.
  induction s as [|c s IH]; simpl; [done|].
  destruct (Ascii.eqb c ","); simpl; [by rewrite IH|].
  pose proof (split_comma_not_nil s). by destruct (split_comma s).
Qed.

Lemma split_comma_no_comma (s piece : string) :
  In piece (split_comma s) -> count_char "," piece = 0%nat.
Proof.
  revert piece. induction s as [|c s IH]; simpl; intros piece.
  - by intros [ <- | [] ].
  - destruct (Ascii.eqb c ",") eqn:Hc.
    + intros [ <- | Hin ]; [done | by apply IH].
    + pose proof (split_comma_not_nil s).
      destruct (split_comma s) as [|p ps]; [done|].
      intros [ <- | Hin ].
      * simpl. rewrite Hc. apply IH. by left.
      * apply IH. by right.
Qed.

(** The pieces are what lies between the commas: joined by commas they
    give the string back. *)
Lemma split_comma_concat (s : string) : String.concat "," (split_comma s) = s.
Proof.
  induction s as [|c s IH]; [done|]. simpl.
  pose proof (split_comma_not_nil s) as Hnil.
  destruct (Ascii.eqb_spec c ",") as [ -> | Hne ].
  - destruct (split_comma s) as [|p ps]; [done|].
    cbn [String.concat] in *. by rewrite IH.
  - destruct (split_comma s) as [|p ps]; [done|].
    destruct ps as [|q ps]; by rewrite <- IH.
Qed.

Lemma is_space2_lead (c1 c2 : ascii) :
  is_space2 c1 c2 = true -> is_space c1 = false.
Proof.
  unfold is_space2, is_space.
  destruct (Nat.eqb_spec (nat_of_ascii c1) 194) as [ -> | ]; [done | discriminate].
Qed.

Lemma is_space3_lead (c1 c2 c3 : ascii) :
  is_space3 c1 c2 c3 = true ->
  is_space c1 = false /\ forall c, is_space2 c1 c = false.
Proof.
  unfold is_space3, is_space, is_space2.
  destruct (Nat.eqb_spec (nat_of_ascii c1) 225) as [ -> | ]; [done|].
  destruct (Nat.eqb_spec (nat_of_ascii c1) 226) as [ -> | ]; [done|].
  destruct (Nat.eqb_spec (nat_of_ascii c1) 227) as [ -> | ]; [done|].
  destruct (Nat.eqb_spec (nat_of_ascii c1) 239) as [ -> | ]; [done|].
  discriminate.
Qed.

Lemma trim_start_white (w t : string) :
  white w = true -> trim_start (w ++ t) = trim_start t.
Proof.
  destruct w as [|c1 [|c2 [|c3 [|c4 w]]]];
    rewrite ?append_cons, ?append_empty_l; simpl; try discriminate.
  - by intros ->.
  - intros Hw. by rewrite (is_space2_lead _ _ Hw), Hw.
  - intros Hw. destruct (is_space3_lead _ _ _ Hw) as [-> H2]. by rewrite H2, Hw.
Qed.

Lemma white_leading (w t : string) : white w = true -> leading (w ++ t) = true.
Proof.
  destruct w as [|c1 [|c2 [|c3 [|c4 w]]]];
    rewrite ?append_cons, ?append_empty_l; simpl; try discriminate.
  - by intros ->.
  - intros ->. by rewrite orb_true_r.
  - intros ->. by rewrite !orb_true_r.
Qed.

Lemma blank_trim_start (s : string) : blank s -> trim_start s = "".
Proof. induction 1 as [|w s Hw _ IH]; [done | by rewrite trim_start_white]. Qed.

Lemma blank_append (a b : string) : blank a -> blank b -> blank (a ++ b).
Proof.
  induction 1 as [|w s Hw _ IH]; [done|]. intros Hb.
  rewrite append_assoc. by constructor; [|apply IH].
Qed.

(** [trimStart] takes white space off the front, and all of it. *)
Lemma trim_start_spec (s : string) :
  leading (trim_start s) = false /\
  exists lead, blank lead /\ s = lead ++ trim_start s.
Proof.
  remember (String.length s) as n eqn:Hn. revert s Hn.
  induction n as [n IH] using lt_wf_ind. intros s Hn.
  assert (Hnone : exists lead, blank lead /\ s = lead ++ s)
    by (exists ""; split; [constructor | done]).
  destruct s as [|c1 s1]; [done|]. simpl in Hn. simpl.
  destruct (is_space c1) eqn:H1.
  { destruct (IH (String.length s1) ltac:(lia) s1 eq_refl) as [Hlead (lead & Hblank & Heq)].
    split; [done|]. exists (String c1 "" ++ lead). split.
    - by constructor.
    - by rewrite append_assoc, <- Heq. }
  destruct s1 as [|c2 s2]; [by simpl; rewrite H1|]. simpl in Hn.
  destruct (is_space2 c1 c2) eqn:H2.
  { destruct (IH (String.length s2) ltac:(lia) s2 eq_refl) as [Hlead (lead & Hblank & Heq)].
    split; [done|]. exists (String c1 (String c2 "") ++ lead). split.
    - by constructor.
    - by rewrite append_assoc, <- Heq. }
  destruct s2 as [|c3 s3]; [by simpl; rewrite H1, H2|]. simpl in Hn.
  destruct (is_space3 c1 c2 c3) eqn:H3.
  { destruct (IH (String.length s3) ltac:(lia) s3 eq_refl) as [Hlead (lead & Hblank & Heq)].
    split; [done|]. exists (String c1 (String c2 (String c3 "")) ++ lead). split.
    - by constructor.
    - by rewrite append_assoc, <- Heq. }
  by simpl; rewrite H1, H2, H3.
Qed.

(** [trimEnd] takes white space off the end, and all of it. *)
Lemma trim_end_spec (s : string) :
  (forall t w, white w = true -> trim_end s <> t ++ w) /\
  exists trail, blank trail /\ s = trim_end s ++ trail.
Proof.
  induction s as [|c s IH].
  { split; [|exists ""; split; [constructor | done]].
    intros [|x t] [|y w]; rewrite ?append_cons, ?append_empty_l; simpl; done. }
  destruct IH as [Hend (trail & Hblank & Heq)].
  cbn [trim_end].
  destruct (String.eqb_spec (trim_start (String c s)) "") as [Hall|Hsome].
  - split; [intros [|x t] [|y w]; rewrite ?append_cons, ?append_empty_l; simpl; done|].
    exists (String c s). split; [|done].
    destruct (trim_start_spec (String c s)) as [_ (lead & Hlead & Hs)].
    rewrite Hall, append_empty_r in Hs. by rewrite Hs.
  - split.
    + intros [|x t] w Hw; rewrite ?append_cons, ?append_empty_l.
      * intros Hs. apply Hsome. apply blank_trim_start.
        rewrite Heq, <- append_cons, Hs.
        apply blank_append; [|done].
        rewrite <- (append_empty_r w). constructor; [done | constructor].
      * intros [= _ Hs]. by apply (Hend t w).
    + exists trail. split; [done|]. by rewrite append_cons, <- Heq.
Qed.

(** [trim] takes the white space off both ends and nothing else. *)
Lemma trim_spec (s : string) :
  (exists lead trail, blank lead /\ blank trail /\ s = lead ++ trim s ++ trail) /\
  (forall w t, white w = true -> trim s <> w ++ t) /\
  (forall t w, white w = true -> trim s <> t ++ w).
Proof.
  unfold trim.
  destruct (trim_start_spec s) as [Hlead (lead & Hblank & Hs)].
  destruct (trim_end_spec (trim_start s)) as [Hend (trail & Htrail & Hr)].
  split; [|split; [|done]].
  - exists lead, trail. split; [done|]. split; [done|]. by rewrite <- Hr.
  - intros w t Hw Heq.
    rewrite Hr, Heq, append_assoc, white_leading in Hlead by done. done.
Qed.

Lemma trim_count (c : ascii) (s : string) :
  (count_char c (trim s) <= count_char c s)%nat.
Proof.
  destruct (trim_spec s) as [(lead & trail & _ & _ & Hs) _].
  rewrite Hs at 2. rewrite !count_char_append. lia.
Qed.

(** What [skills.split(',').map(skill => skill.trim())] yields: the
    pieces between the commas, each without the white space at its two
    ends and otherwise as it is. *)
Lemma skills_of_string (v : string) :
  String.concat "," (split_comma v) = v /\
  length (map trim (split_comma v)) = S (count_char "," v) /\
  Forall2 (fun piece skill =>
             (exists lead trail,
                blank lead /\ blank trail /\ piece = lead ++ skill ++ trail) /\
             count_char "," skill = 0%nat /\
             (forall w t, white w = true -> skill <> w ++ t) /\
             (forall t w, white w = true -> skill <> t ++ w))
          (split_comma v) (map trim (split_comma v)).
Proof.
  split; [apply split_comma_concat|].
  split; [by rewrite length_map, split_comma_length|].
  assert (Hpieces : forall piece, In piece (split_comma v) ->
                                  count_char "," piece = 0%nat)
    by apply split_comma_no_comma.
  induction (split_comma v) as [|piece pieces IH]; simpl; [constructor|].
  constructor.
  - destruct (trim_spec piece) as (Hparts & Hfront & Hback).
    split; [done|]. split; [|done].
    pose proof (trim_count "," piece). rewrite (Hpieces piece) in *; [lia | by left].
  - apply IH. intros p Hp. apply Hpieces. by right.
Qed.

(** ** Profiles *)

Import ProfilePublicApi.

Lemma set_profiles_same (db : DB) : set_profiles db (profiles db) = db.
Proof. by destruct db. Qed.

Lemma update_first_fst (uid : string) (f : Profile -> Profile) (l : list Profile) :
  (update_first uid f l).1 = option_map f (first_of_user uid l).
Proof.
  unfold first_of_user. induction l as [|q l IH]; simpl; [done|].
  destruct (String.eqb (profile_user q) uid); [done|].
  destruct (update_first uid f l) as [r l']. simpl in *. exact IH.
Qed.

Lemma update_first_fixed (uid : string) (f : Profile -> Profile)
    (l : list Profile) (p : Profile) :
  first_of_user uid l = Some p -> f p = p -> (update_first uid f l).2 = l.
Proof.
  unfold first_of_user. intros Hfind Hfix.
  induction l as [|q l IH]; simpl in *; [done|].
  destruct (String.eqb (profile_user q) uid).
  - injection Hfind as ->. simpl. by rewrite Hfix.
  - destruct (update_first uid f l) as [r l']. simpl in *. by rewrite IH.
Qed.

Lemma update_first_length (uid : string) (f : Profile -> Profile) (l : list Profile) :
  length (update_first uid f l).2 = length l.
Proof.
  induction l as [|q l IH]; simpl; [done|].
  destruct (String.eqb (profile_user q) uid); [done|].
  destruct (update_first uid f l) as [r l']. simpl in *. by rewrite IH.
Qed.

Lemma update_first_other (uid v : string) (f : Profile -> Profile) (l : list Profile) :
  v <> uid -> (forall p, profile_user (f p) = uid) ->
  first_of_user v (update_first uid f l).2 = first_of_user v l.
Proof.
  unfold first_of_user. intros Hne Huser.
  induction l as [|q l IH]; simpl; [done|].
  destruct (String.eqb_spec (profile_user q) uid) as [Hq|Hq]; simpl.
  - rewrite Huser.
    destruct (String.eqb_spec uid v); [congruence|].
    destruct (String.eqb_spec (profile_user q) v); [congruence | done].
  - destruct (update_first uid f l) as [r l']. simpl in *.
    destruct (String.eqb (profile_user q) v); [done | exact IH].
Qed.

Lemma first_of_user_other_inserted (v : string) (l : list Profile) (p : Profile) :
  profile_user p <> v -> first_of_user v (l ++ [p])%list = first_of_user v l.
Proof.
  unfold first_of_user. intros Hne.
  induction l as [|q l IH]; simpl.
  - by destruct (String.eqb_spec (profile_user p) v).
  - by destruct (String.eqb (profile_user q) v).
Qed.

Lemma first_of_user_In (uid : string) (l : list Profile) (p : Profile) :
  first_of_user uid l = Some p -> In p l.
Proof. unfold first_of_user. intros Hfind. by apply find_some in Hfind as [? _]. Qed.

(** With [_id]s that are not shared, [save()] of a document of one
    identity leaves what [findOne] finds for another. *)
Lemma first_of_user_other_saved (uid v : string) (l : list Profile) (p p' : Profile) :
  NoDup (map profile_id l) ->
  first_of_user uid l = Some p ->
  profile_id p' = profile_id p -> profile_user p' = uid -> v <> uid ->
  first_of_user v (replace_by_id p' l) = first_of_user v l.
Proof.
  intros Hnodup Hfind Hid Huser Hne.
  induction l as [|q l IH]; [done|].
  simpl in Hnodup. apply NoDup_cons in Hnodup as [Hq Hnodup].
  unfold first_of_user in *. simpl in *.
  destruct (String.eqb_spec (profile_user q) uid) as [Hqu|Hqu].
  - injection Hfind as ->. rewrite Hid, String.eqb_refl. simpl.
    rewrite Huser.
    destruct (String.eqb_spec uid v); [congruence|].
    by destruct (String.eqb_spec (profile_user p) v); [congruence|].
  - destruct (String.eqb_spec (profile_id q) (profile_id p')) as [Heq|Hneq].
    + exfalso. apply Hq. rewrite Heq, Hid. apply list_elem_of_In, in_map.
      by apply (first_of_user_In uid).
    + simpl. destruct (String.eqb (profile_user q) v); [done|]. by apply IH.
Qed.

Lemma replace_by_id_length (p : Profile) (l : list Profile) :
  length (replace_by_id p l) = length l.
Proof.
  induction l as [|q l IH]; simpl; [done|].
  destruct (String.eqb (profile_id q) (profile_id p)); simpl; by rewrite ?IH.
Qed.

Lemma upsertProfile_existing (db : DB) (uid oid : string)
    (req_body : gmap string string) (p : Profile) :
  accepted_profile req_body ->
  first_of_user uid (profiles db) = Some p ->
  let pf := build_profileFields uid req_body in
  upsertProfile uid req_body oid db
  = (json (ProfileDoc (set_fields pf p)),
     set_profiles db (update_first uid (set_fields pf) (profiles db)).2).
Proof.
  intros (Hstatus & Hskills) Hfind pf. unfold_profile_handler.
  unfold check_not_empty. rewrite Hstatus, Hskills. simpl. rewrite Hfind. fold pf.
  pose proof (update_first_fst uid (set_fields pf) (profiles db)) as Hfst.
  rewrite Hfind in Hfst.
  destruct (update_first uid (set_fields pf) (profiles db)) as [r ps].
  simpl in *. by subst r.
Qed.

Lemma upsertProfile_created (db : DB) (uid oid : string)
    (req_body : gmap string string) :
  accepted_profile req_body ->
  first_of_user uid (profiles db) = None ->
  let p' := new_Profile oid (build_profileFields uid req_body) in
  upsertProfile uid req_body oid db
  = (json (ProfileDoc p'), set_profiles db (profiles db ++ [p'])%list).
Proof.
  intros (Hstatus & Hskills) Hfind p'. unfold_profile_handler.
  unfold check_not_empty. rewrite Hstatus, Hskills. simpl. by rewrite Hfind.
Qed.

Lemma getMe_found (db : DB) (uid : string) (p : Profile) :
  first_of_user uid (profiles db) = Some p ->
  getMe uid db = (public_json (Populated p (users db !! uid)), db).
Proof.
  intros Hfind. unfold getMe, try_catch_public, bind, findOne_mine, ret, populate.
  rewrite Hfind. simpl. by rewrite (first_of_user_user _ _ _ Hfind).
Qed.

Lemma getMe_none (db : DB) (uid : string) :
  first_of_user uid (profiles db) = None ->
  getMe uid db = (no_profile, db).
Proof.
  intros Hfind. unfold getMe, try_catch_public, bind, findOne_mine, ret.
  by rewrite Hfind.
Qed.

Lemma pf_skills_supplied (uid v : string) (req_body : gmap string string) :
  req_body !! "skills" = Some v -> isEmpty (req_body !! "skills") = false ->
  pf_skills (build_profileFields uid req_body) = Some (map trim (split_comma v)).
Proof.
  intros Hv Hne. unfold build_profileFields. cbn [pf_skills]. rewrite Hv in *.
  simpl in *. by rewrite Hne.
Qed.

(** X11. After an accepted upsert, GET api/profile/me of the identity
    answers with the very profile that the upsert returned, its [user]
    populated from the user document.  That profile belongs to the
    identity; it is a new last document of the collection, under the
    generated id and with no experience, when the identity had no
    profile, and otherwise it keeps the [_id] and the experience of the
    stored one and the collection keeps its size. *)
Theorem upsertProfile_then_getMe
    (db : DB) (uid oid : string) (req_body : gmap string string) :
  accepted_profile req_body ->
  exists p' : Profile,
    (upsertProfile uid req_body oid db).1 = json (ProfileDoc p') /\
    getMe uid (upsertProfile uid req_body oid db).2
    = (public_json (Populated p' (users db !! uid)),
       (upsertProfile uid req_body oid db).2) /\
    profile_user p' = uid /\
    match first_of_user uid (profiles db) with
    | None =>
        profiles (upsertProfile uid req_body oid db).2 = (profiles db ++ [p'])%list /\
        profile_id p' = oid /\ experience p' = []
    | Some p =>
        length (profiles (upsertProfile uid req_body oid db).2) = length (profiles db) /\
        profile_id p' = profile_id p /\ experience p' = experience p
    end.
Proof.
  intros Hok.
  destruct (upsertProfile_accepted db uid oid req_body Hok) as [Hres Hstored].
  eexists. split; [exact Hres|].
  rewrite (getMe_found _ _ _ Hstored).
  destruct (first_of_user uid (profiles db)) as [p|] eqn:Hfind.
  - rewrite (upsertProfile_existing _ _ _ _ _ Hok Hfind). simpl.
    by rewrite update_first_length.
  - by rewrite (upsertProfile_created _ _ _ _ Hok Hfind).
Qed.

Lemma set_fields_twice (pf : ProfileFields) (p : Profile) :
  set_fields pf (set_fields pf p) = set_fields pf p.
Proof.
  unfold set_fields. simpl. f_equal.
  - by rewrite (assoc_L (∪)), (idemp_L (∪)).
  - by destruct (pf_skills pf).
Qed.

Lemma set_fields_new (oid : string) (pf : ProfileFields) :
  set_fields pf (new_Profile oid pf) = new_Profile oid pf.
Proof.
  unfold set_fields, new_Profile. simpl. f_equal.
  - by rewrite (idemp_L (∪)).
  - by destruct (pf_skills pf).
Qed.

(** X12. An accepted upsert is idempotent: sent again with the same body,
    it answers with the same profile and leaves the store as the first
    request left it. *)
Theorem upsertProfile_idempotent
    (db : DB) (uid oid1 oid2 : string) (req_body : gmap string string) :
  accepted_profile req_body ->
  let first := upsertProfile uid req_body oid1 db in
  upsertProfile uid req_body oid2 first.2 = (first.1, first.2).
Proof.
  intros Hok first. subst first.
  destruct (upsertProfile_accepted db uid oid1 req_body Hok) as [Hres Hstored].
  rewrite Hres.
  set (db1 := (upsertProfile uid req_body oid1 db).2) in *.
  set (pf := build_profileFields uid req_body) in *.
  set (p' := match first_of_user uid (profiles db) with
             | Some p => set_fields pf p
             | None => new_Profile oid1 pf
             end) in *.
  assert (Hfix : set_fields pf p' = p').
  { subst p'. destruct (first_of_user uid (profiles db));
      [apply set_fields_twice | apply set_fields_new]. }
  rewrite (upsertProfile_existing _ _ _ _ _ Hok Hstored). fold pf.
  rewrite Hfix, (update_first_fixed _ _ _ _ Hstored Hfix).
  by rewrite set_profiles_same.
Qed.

(** X13. The skills that an accepted upsert stores are the pieces of the
    [skills] string between its commas, each trimmed.  The pieces, joined
    by commas, are the string, so there is one more than the string has
    commas (empty pieces are kept).  Each skill is its piece without the
    white space at the two ends and otherwise unchanged: it has no comma,
    and no white space character or line terminator of JavaScript starts
    or ends it. *)
Theorem upsertProfile_skills
    (db : DB) (uid oid v : string) (req_body : gmap string string) :
  accepted_profile req_body ->
  req_body !! "skills" = Some v ->
  exists p' : Profile,
    (upsertProfile uid req_body oid db).1 = json (ProfileDoc p') /\
    skills p' = map trim (split_comma v) /\
    String.concat "," (split_comma v) = v /\
    length (skills p') = S (count_char "," v) /\
    Forall2 (fun piece skill =>
               (exists lead trail,
                  blank lead /\ blank trail /\ piece = lead ++ skill ++ trail) /\
               count_char "," skill = 0%nat /\
               (forall w t, white w = true -> skill <> w ++ t) /\
               (forall t w, white w = true -> skill <> t ++ w))
            (split_comma v) (skills p').
Proof.
  intros Hok Hv.
  destruct (upsertProfile_accepted db uid oid req_body Hok) as [Hres _].
  eexists. split; [exact Hres|].
  assert (Hskills : skills (match first_of_user uid (profiles db) with
                            | Some p => set_fields (build_profileFields uid req_body) p
                            | None => new_Profile oid (build_profileFields uid req_body)
                            end) = map trim (split_comma v)).
  { destruct Hok as [_ Hne].
    destruct (first_of_user uid (profiles db)); unfold set_fields, new_Profile;
      cbn [skills]; by rewrite (pf_skills_supplied _ v). }
  rewrite Hskills. split; [done|]. apply skills_of_string.
Qed.

(** X14. [removeExperience] with an id that an entry has takes out the
    first entry with that id and no other: the entries before and after
    it stay, in their order, and GET api/profile/me then answers with
    the profile so changed. *)
Theorem removeExperience_present (db : DB) (uid eid : string) (p : Profile) :
  first_of_user uid (profiles db) = Some p ->
  In eid (map exp_id (experience p)) ->
  exists (before : list Experience) (e : Experience) (after : list Experience),
    experience p = (before ++ e :: after)%list /\
    exp_id e = eid /\
    ~ In eid (map exp_id before) /\
    let p' := set_experience p (before ++ after)%list in
    (removeExperience uid eid db).1 = json (ProfileDoc p') /\
    getMe uid (removeExperience uid eid db).2
    = (public_json (Populated p' (users db !! uid)), (removeExperience uid eid db).2).
Proof.
  intros Hfind Hin.
  destruct (indexOf_split exp_id eid (experience p) Hin)
    as (before & e & after & Hsplit & He & Hnot & _).
  exists before, e, after. split; [done|]. split; [done|]. split; [done|].
  rewrite (removeExperience_found _ _ _ _ Hfind). simpl.
  assert (Hsplice : splice (experience p) (indexOf eid (map exp_id (experience p))) 1
                    = (before ++ after)%list).
  { unfold ObjectId in *. rewrite Hsplit. by apply (splice_indexOf exp_id). }
  rewrite Hsplice. split; [done|].
  apply (getMe_found (set_profiles db _)). simpl.
  eapply first_of_user_saved; [exact Hfind | done |].
  simpl. by eapply first_of_user_user.
Qed.

Section ProfileRequests.

Variable castExperience : ExperienceInput -> option ExperienceInput.

(** X15. The checks come before any lookup: an upsert without status or
    skills and an [addExperience] without title, company or from date are
    answered 400 with one error for each failing field, in the order of
    the checks, and store nothing, also for an identity that has no
    profile. *)
Theorem profile_requests_refused
    (db : DB) (uid oid : string) (req_body : gmap string string)
    (input : ExperienceInput) :
  (~ accepted_profile req_body ->
   exists errors : list ValidationError,
     upsertProfile uid req_body oid db = (mkResponse 400 (Errors errors), db) /\
     map err_param errors
     = List.filter (fun k => isEmpty (req_body !! k)) ["status"; "skills"]) /\
  (~ accepted_experience input ->
   exists errors : list ValidationError,
     addExperience castExperience uid input oid db
     = (mkResponse 400 (Errors errors), db) /\
     map err_msg errors
     = ((if isEmpty (in_title input) then ["Title is required"] else []) ++
        (if isEmpty (in_company input) then ["Company is required"] else []) ++
        (if isEmpty (in_from input) then ["From date is required"] else []))%list).
Proof.
  split.
  - intros Hnot. unfold upsertProfile, accepted_profile, check_not_empty in *.
    destruct (isEmpty (req_body !! "status")) eqn:Hstatus;
      destruct (isEmpty (req_body !! "skills")) eqn:Hskills;
      simpl; try (eexists; split; [reflexivity|]; by simpl; rewrite ?Hstatus, ?Hskills).
    exfalso. by apply Hnot.
  - intros Hnot. unfold addExperience, accepted_experience, check_not_empty in *.
    destruct (isEmpty (in_title input)); destruct (isEmpty (in_company input));
      destruct (isEmpty (in_from input));
      simpl; try (eexists; split; reflexivity).
    exfalso. by apply Hnot.
Qed.

Lemma upsertProfile_step (db : DB) (uid oid : string) (req_body : gmap string string) :
  let db' := (upsertProfile uid req_body oid db).2 in
  db' = db \/
  db' = set_profiles db
          (update_first uid (set_fields (build_profileFields uid req_body))
                        (profiles db)).2 \/
  db' = set_profiles db
          (profiles db ++ [new_Profile oid (build_profileFields uid req_body)])%list.
Proof.
  destruct (isEmpty (req_body !! "status")) eqn:Hstatus;
    [|destruct (isEmpty (req_body !! "skills")) eqn:Hskills].
  - left. apply upsertProfile_refused. by left.
  - left. apply upsertProfile_refused. by right.
  - destruct (first_of_user uid (profiles db)) as [p|] eqn:Hfind.
    + right; left. cbv zeta. by rewrite (upsertProfile_existing _ _ _ _ p).
    + right; right. cbv zeta. by rewrite upsertProfile_created.
Qed.

Lemma addExperience_step (db : DB) (uid oid : string) (input : ExperienceInput) :
  let db' := (addExperience castExperience uid input oid db).2 in
  db' = db \/
  exists p es, first_of_user uid (profiles db) = Some p /\
    db' = set_profiles db (replace_by_id (set_experience p es) (profiles db)).
Proof.
  unfold_profile_handler. cbv zeta.
  destruct (negb _); [by left|].
  destruct (first_of_user uid (profiles db)) as [p|] eqn:Hfind; [|by left].
  simpl. destruct (castExperience input) as [fields|]; [|by left].
  right. by eexists _, _.
Qed.

Lemma removeExperience_step (db : DB) (uid eid : string) :
  let db' := (removeExperience uid eid db).2 in
  db' = db \/
  exists p es, first_of_user uid (profiles db) = Some p /\
    db' = set_profiles db (replace_by_id (set_experience p es) (profiles db)).
Proof.
  unfold_profile_handler. cbv zeta.
  destruct (first_of_user uid (profiles db)) as [p|] eqn:Hfind; [|by left].
  right. by eexists _, _.
Qed.

(** X16. The three requests that write a profile leave the users and the
    posts as they were, and the profile that [findOne] finds for any other
    identity too (for the two experience requests, which save by [_id],
    provided no two profiles share an [_id]); the experience requests
    keep the number of profiles.  This holds whatever the schema does to
    a new entry. *)
Theorem profile_requests_frame
    (db : DB) (uid oid eid v : string) (req_body : gmap string string)
    (input : ExperienceInput) :
  v <> uid ->
  let db1 := (upsertProfile uid req_body oid db).2 in
  let db2 := (addExperience castExperience uid input oid db).2 in
  let db3 := (removeExperience uid eid db).2 in
  (users db1 = users db /\ posts db1 = posts db /\
   first_of_user v (profiles db1) = first_of_user v (profiles db)) /\
  (users db2 = users db /\ posts db2 = posts db /\
   length (profiles db2) = length (profiles db) /\
   (NoDup (map profile_id (profiles db)) ->
    first_of_user v (profiles db2) = first_of_user v (profiles db))) /\
  (users db3 = users db /\ posts db3 = posts db /\
   length (profiles db3) = length (profiles db) /\
   (NoDup (map profile_id (profiles db)) ->
    first_of_user v (profiles db3) = first_of_user v (profiles db))).
Proof.
  intros Hne db1 db2 db3.
  assert (Hsave : forall p es,
            first_of_user uid (profiles db) = Some p ->
            let db' := set_profiles db (replace_by_id (set_experience p es) (profiles db)) in
            users db' = users db /\ posts db' = posts db /\
            length (profiles db') = length (profiles db) /\
            (NoDup (map profile_id (profiles db)) ->
             first_of_user v (profiles db') = first_of_user v (profiles db))).
  { intros p es Hfind db'. subst db'. simpl.
    split; [done|]. split; [done|]. split; [apply replace_by_id_length|].
    intros Hnodup. eapply first_of_user_other_saved; eauto.
    simpl. by eapply first_of_user_user. }
  split; [|split].
  - subst db1. destruct (upsertProfile_step db uid oid req_body) as [ -> | [ -> | -> ] ];
      simpl; [done| |].
    + split; [done|]. split; [done|]. by apply update_first_other.
    + split; [done|]. split; [done|]. by apply first_of_user_other_inserted.
  - subst db2. destruct (addExperience_step db uid oid input)
      as [ -> | (p & es & Hfind & ->) ]; [done|]. by apply Hsave.
  - subst db3. destruct (removeExperience_step db uid eid)
      as [ -> | (p & es & Hfind & ->) ]; [done|]. by apply Hsave.
Qed.

End ProfileRequests.

Lemma remove_first_other (uid v : string) (l : list Profile) :
  v <> uid -> first_of_user v (remove_first uid l) = first_of_user v l.
Proof.
  unfold first_of_user. intros Hne.
  induction l as [|q l IH]; simpl; [done|].
  destruct (String.eqb_spec (profile_user q) uid) as [Hq|Hq]; simpl.
  - by destruct (String.eqb_spec (profile_user q) v); [congruence|].
  - by destruct (String.eqb (profile_user q) v).
Qed.

Lemma remove_first_gone (uid : string) (l : list Profile) :
  NoDup (map profile_user l) -> first_of_user uid (remove_first uid l) = None.
Proof.
  unfold first_of_user. intros Hnodup.
  induction l as [|q l IH]; simpl; [done|].
  simpl in Hnodup. apply NoDup_cons in Hnodup as [Hq Hnodup].
  destruct (String.eqb_spec (profile_user q) uid) as [Hqu|Hqu]; simpl.
  - destruct (List.find _ l) as [p|] eqn:Hfind; [|done].
    apply find_some in Hfind as [Hin Heq]. apply String.eqb_eq in Heq.
    exfalso. apply Hq. rewrite Hqu, <- Heq. by apply list_elem_of_In, in_map.
  - destruct (String.eqb_spec (profile_user q) uid); [done|]. by apply IH.
Qed.

Lemma deleteProfile_eq (db : DB) (uid : string) :
  deleteProfile uid db
  = (json (Msg "User deleted"),
     mkDB (delete uid (users db)) (posts db) (remove_first uid (profiles db))).
Proof. reflexivity. Qed.

(** X17. [deleteProfile] answers "User deleted" whether or not there was
    anything to delete.  It removes the user document of the identity and
    the first profile of the identity; all posts stay, those of the
    identity included, and so do the user documents and the profiles of
    every other identity.  When no two profiles belong to one user, the
    identity has no profile afterwards: GET api/profile/me answers 400
    "There is no profile for this user". *)
Theorem deleteProfile_effect (db : DB) (uid : string) :
  let db' := (deleteProfile uid db).2 in
  (deleteProfile uid db).1 = json (Msg "User deleted") /\
  users db' !! uid = None /\
  posts db' = posts db /\
  (forall v : string, v <> uid ->
     users db' !! v = users db !! v /\
     first_of_user v (profiles db') = first_of_user v (profiles db)) /\
  (NoDup (map profile_user (profiles db)) -> getMe uid db' = (no_profile, db')).
Proof.
  rewrite deleteProfile_eq. simpl.
  split; [done|]. split; [apply lookup_delete_eq|]. split; [done|]. split.
  - intros v Hne. split; [by apply lookup_delete_ne | by apply remove_first_other].
  - intros Hnodup. apply getMe_none. simpl. by apply remove_first_gone.
Qed.

Section AfterDeleteProfile.

Variable castObjectId : string -> option ObjectId.

(** X18. After [deleteProfile] the identity, whose token is still
    accepted, can no longer create a post or a comment (the user document
    is read, and the [catch] answers 500); a like by the identity and
    [getPost] answer as they would have before. *)
Theorem requests_after_deleteProfile
    (db : DB) (uid id text oid : string) (now : Z) :
  text <> "" ->
  let db' := (deleteProfile uid db).2 in
  createPost uid (Some text) oid now db' = (server_error, db') /\
  addComment castObjectId id uid (Some text) oid now db' = (server_error, db') /\
  (like castObjectId id uid oid db').1 = (like castObjectId id uid oid db).1 /\
  (getPost castObjectId id db').1 = (getPost castObjectId id db).1.
Proof.
  intros Htext. rewrite deleteProfile_eq. cbn [snd].
  split; [|split; [|split]].
  - unfold_handler. unfold check_not_empty. rewrite (truthy_text _ Htext). simpl.
    by rewrite lookup_delete_eq.
  - unfold_handler. unfold check_not_empty. rewrite (truthy_text _ Htext). simpl.
    rewrite lookup_delete_eq. by destruct (castObjectId id).
  - unfold_handler. simpl. destruct (castObjectId id) as [key|]; [|done].
    destruct (posts db !! key) as [post|]; [|done]. simpl.
    by destruct (0 <? _)%nat.
  - unfold_handler. simpl. destruct (castObjectId id) as [key|]; [|done].
    by destruct (posts db !! key).
Qed.

End AfterDeleteProfile.

(** ** The public profile routes *)

Section PublicProfiles.

Variable castObjectId : string -> option ObjectId.

Lemma getProfileByUser_found (db : DB) (id key : string) (p : Profile) :
  castObjectId id = Some key ->
  first_of_user key (profiles db) = Some p ->
  getProfileByUser castObjectId id db
  = (public_json (Populated p (users db !! profile_user p)), db).
Proof.
  intros Hcast Hfind.
  unfold getProfileByUser, try_catch_public, bind, findOne_populated, ret.
  by rewrite Hcast, Hfind.
Qed.

(** X19. [getProfileByUser] answers 400 "Profile not found" both for an
    id that is no ObjectId and for an id that casts to the ObjectId of an
    identity without a profile: the two cases get the same response,
    never a 404 and never the 500 of the [catch]; the store is not
    touched. *)
Theorem getProfileByUser_unknown (db : DB) (id : string) :
  castObjectId id = None \/
  (exists key, castObjectId id = Some key /\
               first_of_user key (profiles db) = None) ->
  getProfileByUser castObjectId id db = (profile_not_found, db) /\
  public_status profile_not_found = 400 /\
  profile_not_found <> public_server_error.
Proof.
  intros Hno. split; [|done].
  unfold getProfileByUser, try_catch_public, bind, findOne_populated, ret.
  by destruct Hno as [ -> | (key & -> & ->) ].
Qed.

(** X20. After an accepted upsert by an identity, [getProfileByUser] of
    an id that casts to the ObjectId of the identity answers with the
    profile that the upsert returned, together with the user document of
    the identity (or [null] when there is none). *)
Theorem upsertProfile_then_getProfileByUser
    (db : DB) (id uid oid : string) (req_body : gmap string string) :
  accepted_profile req_body ->
  castObjectId id = Some uid ->
  exists p' : Profile,
    (upsertProfile uid req_body oid db).1 = json (ProfileDoc p') /\
    getProfileByUser castObjectId id (upsertProfile uid req_body oid db).2
    = (public_json (Populated p' (users db !! uid)),
       (upsertProfile uid req_body oid db).2).
Proof.
  intros Hok Hcast.
  destruct (upsertProfile_accepted db uid oid req_body Hok) as [Hres Hstored].
  eexists. split; [exact Hres|].
  rewrite (getProfileByUser_found _ _ _ _ Hcast Hstored).
  rewrite (first_of_user_user _ _ _ Hstored).
  destruct (upsertProfile_step db uid oid req_body) as [ -> | [ -> | -> ] ]; done.
Qed.

(** X21. [getProfiles] answers with every stored profile, in the order of
    the collection, each with the user document of its [user] or [null],
    and does not touch the store.  For an id that casts to an ObjectId,
    [getProfileByUser] answers with the first entry of that list whose
    profile belongs to that ObjectId, and with "Profile not found" when
    the list has none; for an id that does not cast it answers "Profile
    not found" whatever the list holds. *)
Theorem getProfiles_lists_all (db : DB) :
  exists l : list (Profile * option User),
    getProfiles db = (public_json (PopulatedList l), db) /\
    map fst l = profiles db /\
    (forall p u, In (p, u) l -> u = users db !! profile_user p) /\
    (forall id : string,
       (getProfileByUser castObjectId id db).1
       = match castObjectId id with
         | Some key =>
             match List.find (fun e => String.eqb (profile_user e.1) key) l with
             | Some (p, u) => public_json (Populated p u)
             | None => profile_not_found
             end
         | None => profile_not_found
         end).
Proof.
  exists (map (populate db) (profiles db)). split; [done|]. split; [|split].
  - rewrite map_map. simpl. apply map_id.
  - intros p u Hin. apply in_map_iff in Hin as (q & Heq & _).
    unfold populate in Heq. by injection Heq as -> <-.
  - intros id.
    unfold getProfileByUser, try_catch_public, bind, findOne_populated, ret.
    destruct (castObjectId id) as [key|]; [|done].
    unfold first_of_user.
    induction (profiles db) as [|q l IH]; simpl; [done|].
    by destruct (String.eqb (profile_user q) key).
Qed.

End PublicProfiles.

(** ** The further properties on the sample store *)

Lemma createPost_then_getPost_witness :
  getPost hex24 "5F0000000000000000000002"
    (createPost alice (Some "hi") "5f0000000000000000000002" 60 db0).2
  = (json (PostDoc "5f0000000000000000000002"
                   (mkPost alice "hi" "Alice" "alice.png" [] [] 60)),
     (createPost alice (Some "hi") "5f0000000000000000000002" 60 db0).2).
Proof.
  assert (Htext : "hi" <> "") by discriminate.
  destruct (createPost_then_getPost hex24 db0 alice "hi" "5F0000000000000000000002"
              "5f0000000000000000000002" 60 (mkUser "Alice" "alice.png")
              eq_refl eq_refl Htext)
    as [Hcreate Hget].
  rewrite Hcreate. exact Hget.
Defined.

Lemma empty_text_refused_witness :
  addComment hex24 missing alice (Some "") "5f0000000000000000000c03" 60 db0
  = (mkResponse 400 (Errors [mkValidationError "text" "Text is required" (Some "")]),
     db0).
Proof.
  destruct (empty_text_refused hex24 db0 missing alice "5f0000000000000000000c03"
              60 (Some "") eq_refl) as [_ Hcomment].
  exact Hcomment.
Defined.

Lemma unknown_user_or_post_is_server_error_witness :
  createPost "5f00000000000000000000c3" (Some "hi")
             "5f0000000000000000000002" 60 db0 = (server_error, db0) /\
  addComment hex24 missing alice (Some "hi") "5f0000000000000000000c03" 60 db0
  = (server_error, db0) /\
  addComment hex24 malformed alice (Some "hi") "5f0000000000000000000c03" 60 db0
  = (server_error, db0).
Proof.
  assert (Htext : "hi" <> "") by discriminate.
  split; [|split].
  - destruct (unknown_user_or_post_is_server_error hex24 db0 post1
                "5f00000000000000000000c3" "hi" "5f0000000000000000000002" 60 Htext)
      as [Huser _].
    destruct Huser as [Hcreate _]; [reflexivity | exact Hcreate].
  - destruct (unknown_user_or_post_is_server_error hex24 db0 missing
                alice "hi" "5f0000000000000000000c03" 60 Htext)
      as [_ Hpost].
    apply Hpost. intros key Hkey. injection Hkey as <-. reflexivity.
  - destruct (unknown_user_or_post_is_server_error hex24 db0 malformed
                alice "hi" "5f0000000000000000000c03" 60 Htext)
      as [_ Hpost].
    apply Hpost. intros key Hkey. discriminate Hkey.
Defined.

Lemma deletePost_owner_then_gone_witness :
  getPost hex24 post1_upper (deletePost hex24 post1_upper alice db0).2
  = (post_not_found, (deletePost hex24 post1_upper alice db0).2).
Proof.
  destruct (deletePost_owner_then_gone hex24 db0 post1_upper post1 alice hello
              eq_refl eq_refl eq_refl) as (_ & Hget & _).
  exact Hget.
Defined.

Lemma like_then_unlike_restores_witness :
  unlike hex24 post1 alice (like hex24 post1 alice "5f0000000000000000000d02" db0).2
  = (json (LikesDoc [mkLike "5f0000000000000000000d01" bob]), db0).
Proof.
  assert (Hfresh : ~ In alice (map like_user (likes hello))).
  { simpl. intros [Heq|[]]. discriminate. }
  destruct (like_then_unlike_restores hex24 db0 post1 post1 alice
              "5f0000000000000000000d02" hello eq_refl eq_refl Hfresh)
    as [_ Hunlike].
  exact Hunlike.
Defined.

Lemma unlike_removes_one_like_of_requester_witness :
  exists (l1 : list Like) (l : Like) (l2 : list Like),
    likes hello = (l1 ++ l :: l2)%list /\ like_user l = bob /\
    (unlike hex24 post1 bob db0).1 = json (LikesDoc (l1 ++ l2)%list).
Proof.
  assert (Hin : In bob (map like_user (likes hello))) by (simpl; left; reflexivity).
  destruct (unlike_removes_one_like_of_requester hex24 db0 post1 post1 bob hello
              eq_refl eq_refl Hin)
    as (l1 & l & l2 & Hsplit & Hl & _ & Hunlike & _).
  exists l1, l, l2. split; [exact Hsplit|]. split; [exact Hl|].
  rewrite Hunlike. reflexivity.
Defined.

Lemma addComment_then_removeComment_restores_witness :
  removeComment hex24 post1 "5f0000000000000000000c03" alice
    (addComment hex24 post1_upper alice (Some "thanks") "5f0000000000000000000c03"
                300 db0).2
  = (json (CommentsDoc [newer; older]), db0).
Proof.
  assert (Htext : "thanks" <> "") by discriminate.
  destruct (addComment_then_removeComment_restores hex24 db0 post1_upper post1 alice
              "thanks" "5f0000000000000000000c03" 300 (mkUser "Alice" "alice.png") hello
              eq_refl eq_refl eq_refl Htext) as [_ Hremove].
  exact Hremove.
Defined.

Lemma removeComment_unknown_comment_witness :
  removeComment hex24 post1 "5f0000000000000000000c09" alice db0
  = (mkResponse 404 (Msg "Comment does not exist"), db0).
Proof.
  apply (removeComment_unknown_comment hex24 db0 post1 post1 "5f0000000000000000000c09"
           alice hello eq_refl eq_refl).
  simpl. intros [Heq|[Heq|[]]]; discriminate.
Defined.

Lemma removeComment_first_comment_of_author_witness :
  removeComment hex24 post1 (comment_id newer) bob db0
  = (json (CommentsDoc [older]),
     set_posts db0 (<[post1 := set_comments hello [older]]> (posts db0))).
Proof.
  assert (Hnone : forall x : string, ~ In x (@nil string)) by (intros x []).
  exact (removeComment_first_comment_of_author hex24 db0 post1 post1 (comment_id newer)
           bob hello [] newer [older] eq_refl eq_refl eq_refl eq_refl eq_refl
           (Hnone _) (Hnone _)).
Defined.

Lemma upsertProfile_then_getMe_witness :
  exists p' : Profile,
    getMe bob (upsertProfile bob first_body "5f0000000000000000000f02" db0).2
    = (public_json (Populated p' (Some (mkUser "Bob" "bob.png"))),
       (upsertProfile bob first_body "5f0000000000000000000f02" db0).2) /\
    profile_user p' = bob.
Proof.
  assert (Hok : accepted_profile first_body) by (split; reflexivity).
  destruct (upsertProfile_then_getMe db0 bob "5f0000000000000000000f02"
              first_body Hok) as (p' & _ & Hget & Huser & _).
  exists p'. split; [exact Hget | exact Huser].
Defined.

Lemma upsertProfile_idempotent_witness :
  upsertProfile alice update_body "5f0000000000000000000f05"
    (upsertProfile alice update_body "5f0000000000000000000f04" db0).2
  = ((upsertProfile alice update_body "5f0000000000000000000f04" db0).1,
     (upsertProfile alice update_body "5f0000000000000000000f04" db0).2).
Proof.
  assert (Hok : accepted_profile update_body) by (split; reflexivity).
  exact (upsertProfile_idempotent db0 alice "5f0000000000000000000f04"
           "5f0000000000000000000f05" update_body Hok).
Defined.

Lemma upsertProfile_skills_witness :
  exists p' : Profile,
    (upsertProfile bob first_body "5f0000000000000000000f02" db0).1
    = json (ProfileDoc p') /\
    skills p' = ["HTML"; "CSS"].
Proof.
  assert (Hok : accepted_profile first_body) by (split; reflexivity).
  destruct (upsertProfile_skills db0 bob "5f0000000000000000000f02" "HTML, CSS"
              first_body Hok eq_refl) as (p' & Hres & Hskills & _).
  exists p'. split; [exact Hres|]. rewrite Hskills. reflexivity.
Defined.

Lemma removeExperience_present_witness :
  exists (before : list Experience) (e : Experience) (after : list Experience),
    experience alice_profile = (before ++ e :: after)%list /\
    exp_id e = exp_id job2 /\
    (removeExperience alice (exp_id job2) db0).1
    = json (ProfileDoc (set_experience alice_profile (before ++ after)%list)).
Proof.
  assert (Hin : In (exp_id job2) (map exp_id (experience alice_profile)))
    by (simpl; right; left; reflexivity).
  destruct (removeExperience_present db0 alice (exp_id job2) alice_profile
              eq_refl Hin)
    as (before & e & after & Hsplit & He & _ & Hres & _).
  exists before, e, after. split; [exact Hsplit|]. split; [exact He | exact Hres].
Defined.

Lemma profile_requests_frame_witness :
  first_of_user alice
    (profiles (upsertProfile bob first_body "5f0000000000000000000f02" db0).2)
  = Some alice_profile.
Proof.
  assert (Hne : alice <> bob) by discriminate.
  destruct (profile_requests_frame dated_entries db0 bob "5f0000000000000000000f02"
              absent_entry alice first_body new_job Hne) as ((_ & _ & Hother) & _).
  rewrite Hother. reflexivity.
Defined.

Lemma requests_after_deleteProfile_witness :
  createPost alice (Some "hi") "5f0000000000000000000002" 60
             (deleteProfile alice db0).2
  = (server_error, (deleteProfile alice db0).2).
Proof.
  assert (Htext : "hi" <> "") by discriminate.
  destruct (requests_after_deleteProfile hex24 db0 alice post1 "hi"
              "5f0000000000000000000002" 60 Htext) as (Hcreate & _).
  exact Hcreate.
Defined.

Lemma getProfileByUser_unknown_witness :
  getProfileByUser hex24 malformed db0 = (profile_not_found, db0) /\
  getProfileByUser hex24 bob db0 = (profile_not_found, db0).
Proof.
  split.
  - apply (getProfileByUser_unknown hex24 db0 malformed). left. reflexivity.
  - apply (getProfileByUser_unknown hex24 db0 bob). right.
    exists bob. split; reflexivity.
Defined.

Lemma upsertProfile_then_getProfileByUser_witness :
  exists p' : Profile,
    getProfileByUser hex24 "5F00000000000000000000B2"
      (upsertProfile bob first_body "5f0000000000000000000f02" db0).2
    = (public_json (Populated p' (Some (mkUser "Bob" "bob.png"))),
       (upsertProfile bob first_body "5f0000000000000000000f02" db0).2).
Proof.
  assert (Hok : accepted_profile first_body) by (split; reflexivity).
  destruct (upsertProfile_then_getProfileByUser hex24 db0 "5F00000000000000000000B2"
              bob "5f0000000000000000000f02" first_body Hok eq_refl)
    as (p' & _ & Hget).
  exists p'. exact Hget.
Defined.

Lemma post_requests_frame_witness :
  users (run hex24 (LikeReq post1 alice "5f0000000000000000000d02") db0).2 = users db0 /\
  posts (run hex24 (LikeReq post1 alice "5f0000000000000000000d02") db0).2 !! missing
  = None.
Proof.
  destruct (post_requests_frame hex24 (LikeReq post1 alice "5f0000000000000000000d02")
              db0) as (Husers & _ & Hother & _).
  split; [exact Husers|].
  rewrite Hother; [reflexivity | discriminate].
Defined.

Lemma profile_requests_refused_witness :
  exists errors : list ValidationError,
    addExperience dated_entries bob
                  (mkExperienceInput None (Some "Globex") None (Some "") None None None)
                  "5f0000000000000000000e03" db0
    = (mkResponse 400 (Errors errors), db0) /\
    map err_msg errors = ["Title is required"; "From date is required"].
Proof.
  destruct (profile_requests_refused dated_entries db0 bob "5f0000000000000000000e03"
              first_body
              (mkExperienceInput None (Some "Globex") None (Some "") None None None))
    as [_ Hexperience].
  apply Hexperience. intros (Htitle & _). discriminate.
Defined.

Lemma deleteProfile_effect_witness :
  getMe alice (deleteProfile alice db0).2 = (no_profile, (deleteProfile alice db0).2) /\
  posts (deleteProfile alice db0).2 !! post1 = Some hello.
Proof.
  destruct (deleteProfile_effect db0 alice) as (_ & _ & Hposts & _ & Hgone).
  split.
  - apply Hgone. apply NoDup_singleton.
  - rewrite Hposts. reflexivity.
Defined.

Lemma getProfiles_lists_all_witness :
  exists l : list (Profile * option User),
    getProfiles db0 = (public_json (PopulatedList l), db0) /\
    map fst l = [alice_profile] /\
    (getProfileByUser hex24 alice_upper db0).1
    = match List.find (fun e => String.eqb (profile_user e.1) alice) l with
      | Some (p, u) => public_json (Populated p u)
      | None => profile_not_found
      end.
Proof.
  destruct (getProfiles_lists_all hex24 db0) as (l & Hres & Hall & _ & Hby).
  exists l. split; [exact Hres|]. split; [exact Hall|].
  exact (Hby alice_upper).
Defined.
